(** * packages/docutils/lib/init.ts

    A shallow embedding of the `init` command of @appium/docutils: the
    `mkdocs.yml` transform, the Python dependency installer and the
    orchestrator that runs the scaffold tasks one after the other.

    JavaScript objects live in a heap of mutable records, log calls and
    spawned commands are recorded in the world, and every function of the
    source is a computation in a state-and-exception monad over that world. *)

From Stdlib Require Import ZArith Ascii String Sorted Lia.
From stdpp Require Import base option list strings pretty gmap.

Open Scope string_scope.

(** ** JavaScript values *)

Definition loc := nat.

(** Primitives and references to heap objects.  Numbers are the integral
    ones; the code under study never computes with them. *)
Inductive value :=
  | VUndefined
  | VNull
  | VBool (b : bool)
  | VNum (n : Z)
  | VStr (s : string)
  | VRef (l : loc).

(** ToBoolean: what `if (v)` and `!v` look at. *)
Definition truthy (v : value) : bool :=
  match v with
  | VUndefined | VNull => false
  | VBool b => b
  | VNum n => negb (n =? 0)%Z
  | VStr s => negb (String.eqb s "")
  | VRef _ => true
  end.

Definition nullish (v : value) : bool :=
  match v with
  | VUndefined | VNull => true
  | _ => false
  end.

(** `a ?? b` *)
Definition coalesce (a b : value) : value := if nullish a then b else a.
Infix "??" := coalesce (at level 45, left associativity).

(** An optional field of a typed record (`x?: string`) read as a value. *)
Definition of_opt (o : option string) : value :=
  match o with
  | Some s => VStr s
  | None => VUndefined
  end.

(** ** The string operations used by the source *)

(** `s.slice(1)` *)
Definition slice1 (s : string) : string :=
  match s with
  | EmptyString => EmptyString
  | String _ rest => rest
  end.

(** `s.split(sep)` for a one-character separator: never the empty array. *)
Fixpoint split (sep : ascii) (s : string) : list string :=
  match s with
  | EmptyString => [EmptyString]
  | String c rest =>
      if Ascii.eqb c sep then EmptyString :: split sep rest
      else match split sep rest with
           | [] => [String c EmptyString]
           | seg :: segs => String c seg :: segs
           end
  end.

(** `s.replace(/\.git$/, '')`: the pattern can only match at the very end. *)
Fixpoint replace_dot_git (s : string) : string :=
  if String.eqb s ".git" then EmptyString
  else match s with
       | EmptyString => EmptyString
       | String c rest => String c (replace_dot_git rest)
       end.

(** `parts.join(sep)` *)
Fixpoint join (sep : string) (parts : list string) : string :=
  match parts with
  | [] => EmptyString
  | [p] => p
  | p :: rest => p ++ sep ++ join sep rest
  end.

(** Substitution of the `%s` directives of a log format by its arguments. *)
Fixpoint format (fmt : string) (args : list string) : string :=
  match fmt with
  | String "%" (String "s" rest) =>
      match args with
      | a :: args' => a ++ format rest args'
      | [] => String "%" (String "s" (format rest []))
      end
  | String c rest => String c (format rest args)
  | EmptyString => EmptyString
  end.

(** ** Errors, objects and the world *)

Record Error := mkError { err_name : string; message : string }.

Definition TypeError (msg : string) : Error := mkError "TypeError" msg.

(** Modelled from the spec: `DocutilsError` of ./error, the "domain-specific
    error" of section 7, an error with its own name and a message. *)
Definition DocutilsError (msg : string) : Error := mkError "DocutilsError" msg.

(** What `new URL(s)` throws on a string that is not a URL, and what
    `repo.replace(...)` throws when `repo` is `undefined`. *)
Definition INVALID_URL : Error := TypeError "Invalid URL".
Definition REPLACE_OF_UNDEFINED : Error :=
  TypeError "Cannot read properties of undefined (reading 'replace')".

(** A heap object: its own enumerable properties, whether it is an array
    (then the keys are the indices) and whether `Object.freeze` was applied. *)
Record object := mkObject {
  props : gmap string value;
  is_array : bool;
  frozen : bool
}.

Inductive log_level := Info | Warn | Debug | Success.

(** One call `logger.withTag(tag).<level>(fmt, ...args)`. *)
Record log_entry := mkLog {
  tag : string;
  level : log_level;
  fmt : string;
  args : list string
}.

Definition rendered (e : log_entry) : string := format (fmt e) (args e).

Record world := mkWorld {
  heap : list object;
  logs : list log_entry;
  spawned : list (string * list string);
  files : gmap string string
}.

(** ** The monad of the embedding

    A computation returns, throws (the world reached so far stays), or is
    [Stuck] when it is handed something outside the declared TypeScript
    types: a dangling reference, or a repository URL that is not a string. *)
Inductive outcome (A : Type) :=
  | Return (a : A) (w : world)
  | Throw (e : Error) (w : world)
  | Stuck.
Arguments Return {A} a w.
Arguments Throw {A} e w.
Arguments Stuck {A}.

Definition M (A : Type) : Type := world → outcome A.

#[export] Instance M_ret : MRet M := λ A a w, Return a w.
#[export] Instance M_bind : MBind M := λ A B k m w,
  match m w with
  | Return a w' => k a w'
  | Throw e w' => Throw e w'
  | Stuck => Stuck
  end.

Definition throw {A} (e : Error) : M A := λ w, Throw e w.
Definition stuck {A} : M A := λ _, Stuck.

(** `try { body } catch (err) { handler(err) }` *)
Definition try_catch {A} (body : M A) (handler : Error → M A) : M A := λ w,
  match body w with
  | Throw e w' => handler e w'
  | r => r
  end.

(** `if (c) { body }` with no else branch *)
Definition when (c : bool) (body : M unit) : M unit :=
  if c then body else mret tt.

Definition log_call (t : string) (lv : log_level) (f : string) (a : list string) : M unit :=
  λ w, Return tt (mkWorld (heap w) (logs w ++ [mkLog t lv f a]) (spawned w) (files w)).

(** `const log = logger.withTag('init')`, `const dryRunLog = logger.withTag('dry-run')` *)
Definition log : log_level → string → list string → M unit := log_call "init".
Definition dryRunLog : log_level → string → list string → M unit := log_call "dry-run".

(** `o.k`: a missing property reads as `undefined`. *)
Definition prop (o : object) (k : string) : value := default VUndefined (props o !! k).

Definition get_prop (l : loc) (k : string) : M value := λ w,
  match heap w !! l with
  | Some o => Return (prop o k) w
  | None => Stuck
  end.

(** The own enumerable properties copied by a spread `...o`. *)
Definition spread (l : loc) : M (gmap string value) := λ w,
  match heap w !! l with
  | Some o => Return (props o) w
  | None => Stuck
  end.

(** Evaluation of an object or array literal: a new, unfrozen heap object. *)
Definition new_object (arr : bool) (ps : gmap string value) : M loc := λ w,
  Return (length (heap w))
         (mkWorld (heap w ++ [mkObject ps arr false]) (logs w) (spawned w) (files w)).

(** `Object.freeze(o)`: shallow, returns its argument. *)
Definition Object_freeze (l : loc) : M loc := λ w,
  match heap w !! l with
  | Some o =>
      Return l (mkWorld (<[l := mkObject (props o) (is_array o) true]> (heap w))
                        (logs w) (spawned w) (files w))
  | None => Stuck
  end.

(** ** Option records *)

Record ScaffoldTaskOptions := mkTaskOptions {
  dest : option string;
  packageJson : option string;
  overwrite : option bool;
  dryRun : option bool;
  cwd : option string
}.

(** `interface InitMkDocsOptions extends ScaffoldTaskOptions` *)
Record InitMkDocsOptions := mkMkDocsOptions {
  mkdocs_task : ScaffoldTaskOptions;
  copyright : option string;
  repoName : option string;
  repoUrl : option string;
  siteDescription : option string;
  siteName : option string
}.

(** `interface InitTsConfigOptions extends ScaffoldTaskOptions` *)
Record InitTsConfigOptions := mkTsConfigOptions {
  tsconfig_task : ScaffoldTaskOptions;
  include : option (list string)
}.

(** `interface InitTypeDocOptions extends ScaffoldTaskOptions {}` *)
Definition InitTypeDocOptions := ScaffoldTaskOptions.

(** `interface InitPythonOptions extends ScaffoldTaskOptions` *)
Record InitPythonOptions := mkPythonOptions {
  python_task : ScaffoldTaskOptions;
  pythonPath : option string
}.

(** The fields of package.json the transform reads.  A `repository` given
    in its string shorthand has no `url` property, which is [url := None]. *)
Record Repository := mkRepository { url : option string }.

Record PackageJson := mkPackageJson {
  name : option string;
  description : option string;
  repository : option Repository
}.

(** `pkg.repository?.url` *)
Definition repository_url (pkg : PackageJson) : option string :=
  match repository pkg with
  | Some r => url r
  | None => None
  end.

(** ** The mkdocs.yml transform (init.ts, lines 87-127) *)

Section MkDocsTransform.

(** `new URL(s).pathname`, or [None] when the constructor throws. *)
Variable URL_pathname : string → option string.

(** Lines 104-111, entered with a truthy [repoUrl]. *)
Definition derive_repoName (repoUrl : value) : M value :=
  match repoUrl with
  | VStr u =>
      match URL_pathname u with
      | None => throw INVALID_URL
      | Some pathname =>
          let pathname := slice1 pathname in
          let parts := split "/" pathname in
          let owner := default EmptyString (parts !! 0%nat) in
          match parts !! 1%nat with
          | None => throw REPLACE_OF_UNDEFINED
          | Some repo =>
              let repo := replace_dot_git repo in
              let repoName := join "/" [owner; repo] in
              when (truthy (VStr repoName))
                   (log Info "Using repo name from package.json: %s" [repoName]);;
              mret (VStr repoName)
          end
      end
  | _ => stuck
  end.

Definition mkdocs_transform (content : loc) (opts : InitMkDocsOptions)
    (pkg : PackageJson) : M loc :=
  content_site_name ← get_prop content "site_name";
  let siteName := of_opt (siteName opts) ?? content_site_name in
  siteName ←
    (if negb (truthy siteName) then
       let siteName := VStr (default "(no name)" (name pkg)) in
       when (truthy siteName)
            (log Info "Using site name from package.json: %s"
                 [default "(no name)" (name pkg)]);;
       mret siteName
     else mret siteName);
  content_repo_url ← get_prop content "repo_url";
  let repoUrl := of_opt (repoUrl opts) ?? content_repo_url in
  repoUrl ←
    (if negb (truthy repoUrl) then
       let repoUrl := of_opt (repository_url pkg) in
       when (truthy repoUrl)
            (log Info "Using repo URL from package.json: %s"
                 [default EmptyString (repository_url pkg)]);;
       mret repoUrl
     else mret repoUrl);
  content_repo_name ← get_prop content "repo_name";
  let repoName := of_opt (repoName opts) ?? content_repo_name in
  repoName ←
    (if truthy repoUrl && negb (truthy repoName) then derive_repoName repoUrl
     else mret repoName);
  content_site_description ← get_prop content "site_description";
  let siteDescription := of_opt (siteDescription opts) ?? content_site_description in
  siteDescription ←
    (if negb (truthy siteDescription) then
       let siteDescription := of_opt (description pkg) in
       when (truthy siteDescription)
            (log Info "Using site description URL from package.json: %s"
                 [default EmptyString (description pkg)]);;
       mret siteDescription
     else mret siteDescription);
  own ← spread content;
  new_object false
    (<["site_description" := siteDescription]>
       (<["repo_name" := repoName]>
          (<["repo_url" := repoUrl]>
             (<["site_name" := siteName]> own)))).

End MkDocsTransform.

(** The values the locals hold once their block has run: `siteName`
    after line 94, `repoUrl` after line 101, `siteDescription` after
    line 119, for a content object [c]. *)
Definition or_else (v fallback : value) : value :=
  if truthy v then v else fallback.

Definition resolved_siteName (opts : InitMkDocsOptions) (c : object) (pkg : PackageJson) : value :=
  or_else (of_opt (siteName opts) ?? prop c "site_name")
          (VStr (default "(no name)" (name pkg))).

Definition resolved_repoUrl (opts : InitMkDocsOptions) (c : object) (pkg : PackageJson) : value :=
  or_else (of_opt (repoUrl opts) ?? prop c "repo_url")
          (of_opt (repository_url pkg)).

Definition resolved_siteDescription (opts : InitMkDocsOptions) (c : object) (pkg : PackageJson) : value :=
  or_else (of_opt (siteDescription opts) ?? prop c "site_description")
          (of_opt (description pkg)).

(** `repoName` as line 102 leaves it. *)
Definition given_repoName (opts : InitMkDocsOptions) (c : object) : value :=
  of_opt (repoName opts) ?? prop c "repo_name".

(** What lines 105-108 make of a pathname with at least two segments. *)
Definition repoName_of_pathname (pathname : string) : option string :=
  let parts := split "/" (slice1 pathname) in
  match parts !! 1%nat with
  | Some repo => Some (join "/" [default EmptyString (parts !! 0%nat); replace_dot_git repo])
  | None => None
  end.

(** What `repoName` is when the transform returns. *)
Definition repoName_outcome (URL_pathname : string → option string)
    (opts : InitMkDocsOptions) (c : object) (pkg : PackageJson) (result : value) : Prop :=
  if truthy (resolved_repoUrl opts c pkg) && negb (truthy (given_repoName opts c)) then
    ∃ u pathname derived,
      resolved_repoUrl opts c pkg = VStr u ∧
      URL_pathname u = Some pathname ∧
      repoName_of_pathname pathname = Some derived ∧
      result = VStr derived
  else result = given_repoName opts c.

Definition MKDOCS_KEYS : list string :=
  ["site_name"; "repo_url"; "repo_name"; "site_description"].

(** The precedence of section 4.3 of the specification, as worded there:
    the explicit option, else the existing value, else the value from the
    project metadata, else nothing. *)
Definition worded_precedence (explicit : option string) (existing : value)
    (from_metadata : option string) : value :=
  match explicit with
  | Some s => VStr s
  | None => if nullish existing then of_opt from_metadata else existing
  end.

(** The precedence the transform applies to one field: a non-empty
    explicit option, else a truthy existing value, else the fallback. *)
Definition chosen_by_precedence (explicit : option string)
    (existing fallback result : value) : Prop :=
  (∀ s, explicit = Some s → s ≠ "" → result = VStr s) ∧
  (explicit = None → truthy existing = true → result = existing) ∧
  (explicit = None → truthy existing = false → result = fallback).

(** [text] occurs in [msg]. *)
Definition includes (msg text : string) : Prop :=
  ∃ before after, msg = before ++ text ++ after.

Definition with_logs (w : world) (extra : list log_entry) : world :=
  mkWorld (heap w) (logs w ++ extra) (spawned w) (files w).

(** What the transform does for the four fields of a returned object [o],
    given the content [c] it started from. *)
Definition fields_follow_precedence (URL_pathname : string → option string)
    (opts : InitMkDocsOptions) (c : object) (pkg : PackageJson) (o : object) : Prop :=
  chosen_by_precedence (siteName opts) (prop c "site_name")
    (VStr (default "(no name)" (name pkg))) (prop o "site_name") ∧
  chosen_by_precedence (repoUrl opts) (prop c "repo_url")
    (of_opt (repository_url pkg)) (prop o "repo_url") ∧
  chosen_by_precedence (siteDescription opts) (prop c "site_description")
    (of_opt (description pkg)) (prop o "site_description") ∧
  (∀ s, repoName opts = Some s → s ≠ "" → prop o "repo_name" = VStr s) ∧
  (repoName opts = None → truthy (prop c "repo_name") = true →
   prop o "repo_name" = prop c "repo_name") ∧
  (repoName opts = None → truthy (prop c "repo_name") = false →
   if truthy (prop o "repo_url") then
     ∃ u pathname derived,
       prop o "repo_url" = VStr u ∧ URL_pathname u = Some pathname ∧
       repoName_of_pathname pathname = Some derived ∧
       prop o "repo_name" = VStr derived
   else prop o "repo_name" = prop c "repo_name").

(** The four fields of [o] as the worded precedence has them, the
    repository name of the metadata being the one derived from its URL. *)
Definition fields_as_worded (URL_pathname : string → option string)
    (opts : InitMkDocsOptions) (c : object) (pkg : PackageJson) (o : object) : Prop :=
  prop o "site_name"
    = worded_precedence (siteName opts) (prop c "site_name") (name pkg) ∧
  prop o "repo_url"
    = worded_precedence (repoUrl opts) (prop c "repo_url") (repository_url pkg) ∧
  prop o "repo_name"
    = worded_precedence (repoName opts) (prop c "repo_name")
        (match repository_url pkg with
         | Some u =>
             match URL_pathname u with
             | Some pathname => repoName_of_pathname pathname
             | None => None
             end
         | None => None
         end) ∧
  prop o "site_description"
    = worded_precedence (siteDescription opts) (prop c "site_description")
        (description pkg).

(** The same options with another `copyright`. *)
Definition with_copyright (c : option string) (opts : InitMkDocsOptions) : InitMkDocsOptions :=
  mkMkDocsOptions (mkdocs_task opts) c (repoName opts) (repoUrl opts)
    (siteDescription opts) (siteName opts).

(** ** The Python installer (init.ts, lines 135-158) *)

Definition NAME_MKDOCS_YML := "mkdocs.yml".
Definition NAME_TSCONFIG_JSON := "tsconfig.json".
Definition NAME_PYTHON := "python".

(** What teen_process `exec` settles with: the fields of the result that
    `initPython` destructures, or the error of a rejected promise.  A
    promise that never settles (line 146 sets no timeout) has no place
    here: the embedding speaks of the runs whose subprocess ends. *)
Inductive exec_result :=
  | Resolved (code : Z) (stdout : string)
  | Rejected (err : Error).

Section Python.

(** `path.join(fs.findRoot(__dirname), 'requirements.txt')` *)
Variable REQUIREMENTS_TXT_PATH : string.

(** The subprocess facility: how a command ends, given the files it
    finds. *)
Variable exec : string → list string → gmap string string → exec_result.

(** `await exec(cmd, args, {shell: true})`; the command is recorded in
    [spawned] whether it succeeds or not. *)
Definition await_exec (cmd : string) (cmd_args : list string) : M (Z * string) := λ w,
  let w' := mkWorld (heap w) (logs w) (spawned w ++ [(cmd, cmd_args)]) (files w) in
  match exec cmd cmd_args (files w) with
  | Resolved code stdout => Return (code, stdout) w'
  | Rejected err => Throw err w'
  end.

Definition pip_install_args : list string :=
  ["-m"; "pip"; "install"; "-r"; REQUIREMENTS_TXT_PATH].

Definition initPython (opts : InitPythonOptions) : M unit :=
  let pythonPath := default NAME_PYTHON (pythonPath opts) in
  let dryRun := default false (dryRun (python_task opts)) in
  let args := pip_install_args in
  (if dryRun then
     dryRunLog Info "Would execute command: %s %s" [pythonPath; join " " args]
   else
     log Debug "Executing command: %s %s" [pythonPath; join " " args];;
     log Info "Installing Python dependencies..." [];;
     try_catch
       (result ← await_exec pythonPath args;
        let '(code, stdout) := result in
        if negb (code =? 0)%Z then
          throw (DocutilsError
                   ("Could not install Python dependencies. Reason: " ++ stdout))
        else mret tt)
       (λ err,
          throw (DocutilsError
                   ("Could not install Python dependencies. Reason: " ++ message err))));;
  log Success "Installed Python dependencies (or dependencies already installed)" [].

End Python.

(** How the subprocess itself ends: with an exit code and what it wrote,
    or without having been started. *)
Inductive subprocess_end :=
  | Exited (code : Z) (stdout stderr : string)
  | NotStarted (err : Error).

(** The message of the error teen_process builds for an exit code other
    than 0: `Command '<command>' exited with code <code>`, the command
    being rendered by [quote]. *)
Definition exit_message (quote : list string → string) (cmd : string)
    (cmd_args : list string) (code : Z) : string :=
  "Command '" ++ quote (cmd :: cmd_args) ++ "' exited with code " ++ pretty code.

(** `exec` of teen_process, a dependency of the package, over a subprocess
    [run]: the promise resolves only on exit code 0; on any other exit code
    it rejects with an error that carries the output in its properties and
    not in its message; a subprocess that cannot be started rejects with
    the error of the launch. *)
Definition teen_process_exec (quote : list string → string)
    (run : string → list string → gmap string string → subprocess_end)
    : string → list string → gmap string string → exec_result :=
  λ cmd cmd_args fs,
    match run cmd cmd_args fs with
    | Exited code stdout _ =>
        if (code =? 0)%Z then Resolved code stdout
        else Rejected (mkError "Error" (exit_message quote cmd cmd_args code))
    | NotStarted err => Rejected err
    end.

(** The text every failure of the installer starts with. *)
Definition INSTALL_FAILED : string := "Could not install Python dependencies. Reason: ".

(** ** The orchestrator (init.ts, lines 177-240) *)

Module InitOptions.
Record t := mk {
  typescript : option bool;
  typedoc : option bool;
  python : option bool;
  mkdocs : option bool;
  tsConfigJson : option string;
  typedocJson : option string;
  mkdocsPath : option string;
  packageJson : option string;
  overwrite : option bool;
  dryRun : option bool;
  cwd : option string;
  include : option (list string);
  pythonPath : option string;
  copyright : option string;
  repoName : option string;
  repoUrl : option string;
  siteDescription : option string;
  siteName : option string
}.
End InitOptions.

(** `if (flag)` on an optional boolean *)
Definition enabled (flag : option bool) : bool := default false flag.

Definition tsconfig_step_options (o : InitOptions.t) : InitTsConfigOptions :=
  {| tsconfig_task :=
       {| dest := InitOptions.tsConfigJson o;
          packageJson := InitOptions.packageJson o;
          overwrite := InitOptions.overwrite o;
          dryRun := InitOptions.dryRun o;
          cwd := InitOptions.cwd o |};
     include := InitOptions.include o |}.

Definition typedoc_step_options (o : InitOptions.t) : InitTypeDocOptions :=
  {| dest := InitOptions.typedocJson o;
     packageJson := InitOptions.packageJson o;
     overwrite := InitOptions.overwrite o;
     dryRun := InitOptions.dryRun o;
     cwd := InitOptions.cwd o |}.

Definition python_step_options (o : InitOptions.t) : InitPythonOptions :=
  {| python_task :=
       {| dest := None; packageJson := None; overwrite := None;
          dryRun := InitOptions.dryRun o; cwd := None |};
     pythonPath := InitOptions.pythonPath o |}.

Definition mkdocs_step_options (o : InitOptions.t) : InitMkDocsOptions :=
  {| mkdocs_task :=
       {| dest := InitOptions.mkdocsPath o;
          packageJson := InitOptions.packageJson o;
          overwrite := InitOptions.overwrite o;
          dryRun := InitOptions.dryRun o;
          cwd := InitOptions.cwd o |};
     copyright := InitOptions.copyright o;
     repoName := InitOptions.repoName o;
     repoUrl := InitOptions.repoUrl o;
     siteDescription := None;
     siteName := InitOptions.siteName o |}.

Definition TSCONFIG_WARNING :=
  "Initialization of tsconfig.json disabled. TypeDoc requires a tsconfig.json; please ensure it exists".

Section Init.

Variable REQUIREMENTS_TXT_PATH : string.
Variable exec : string → list string → gmap string string → exec_result.

(** The three scaffold tasks `init` awaits are built by
    `createScaffoldTask`; here they are any computations at all. *)
Variable initTsConfigJson : InitTsConfigOptions → M unit.
Variable initTypeDocJson : InitTypeDocOptions → M unit.
Variable initMkDocs : InitMkDocsOptions → M unit.

Definition init (o : InitOptions.t) : M unit :=
  when (negb (enabled (InitOptions.typescript o)) && enabled (InitOptions.typedoc o))
       (log Warn TSCONFIG_WARNING []);;
  when (enabled (InitOptions.typescript o))
       (initTsConfigJson (tsconfig_step_options o));;
  when (enabled (InitOptions.typedoc o))
       (initTypeDocJson (typedoc_step_options o));;
  when (enabled (InitOptions.python o))
       (initPython REQUIREMENTS_TXT_PATH exec (python_step_options o));;
  when (enabled (InitOptions.mkdocs o))
       (initMkDocs (mkdocs_step_options o)).

(** The orchestration as section 4.5 of the specification words it: the
    steps whose flag is set, in the fixed order, run one after the other
    until one fails. *)
Inductive step :=
  | ScaffoldTsConfig (opts : InitTsConfigOptions)
  | ScaffoldTypeDoc (opts : InitTypeDocOptions)
  | InstallPython (opts : InitPythonOptions)
  | ScaffoldMkDocs (opts : InitMkDocsOptions).

Definition run_step (s : step) : M unit :=
  match s with
  | ScaffoldTsConfig opts => initTsConfigJson opts
  | ScaffoldTypeDoc opts => initTypeDocJson opts
  | InstallPython opts => initPython REQUIREMENTS_TXT_PATH exec opts
  | ScaffoldMkDocs opts => initMkDocs opts
  end.

Definition enabled_steps (o : InitOptions.t) : list step :=
  (if enabled (InitOptions.typescript o) then [ScaffoldTsConfig (tsconfig_step_options o)] else [])
  ++ (if enabled (InitOptions.typedoc o) then [ScaffoldTypeDoc (typedoc_step_options o)] else [])
  ++ (if enabled (InitOptions.python o) then [InstallPython (python_step_options o)] else [])
  ++ (if enabled (InitOptions.mkdocs o) then [ScaffoldMkDocs (mkdocs_step_options o)] else []).

Fixpoint run_in_order (steps : list step) (w : world) : outcome unit :=
  match steps with
  | [] => Return tt w
  | s :: rest =>
      match run_step s w with
      | Return _ w' => run_in_order rest w'
      | Throw e w' => Throw e w'
      | Stuck => Stuck
      end
  end.

(** The world in which the first step starts: the warning of lines
    196-200 has been logged when TypeDoc is asked for without
    TypeScript. *)
Definition warning_due (o : InitOptions.t) : bool :=
  negb (enabled (InitOptions.typescript o)) && enabled (InitOptions.typedoc o).

Definition after_warning (o : InitOptions.t) (w : world) : world :=
  if warning_due o then with_logs w [mkLog "init" Warn TSCONFIG_WARNING []] else w.

End Init.

Definition is_tsconfig_step (s : step) : bool :=
  match s with ScaffoldTsConfig _ => true | _ => false end.

(** Position of a step in the order tsconfig, typedoc, Python, mkdocs. *)
Definition step_rank (s : step) : nat :=
  match s with
  | ScaffoldTsConfig _ => 0
  | ScaffoldTypeDoc _ => 1
  | InstallPython _ => 2
  | ScaffoldMkDocs _ => 3
  end.

(** ** The base templates (init.ts, lines 18-49)

    The heap as the module leaves it once loaded.  `Object.freeze` is
    shallow: the three templates are frozen, the arrays and the object
    nested in them are not. *)

Definition array_literal (items : list string) : object :=
  mkObject (list_to_map (imap (λ i s, (pretty i, VStr s)) items)) true false.

Definition BASE_MKDOCS_YML : loc := 0.
Definition BASE_TYPEDOC_JSON : loc := 3.
Definition BASE_TSCONFIG_JSON : loc := 6.

Definition module_heap : list object :=
  [ (* 0: BASE_MKDOCS_YML *)
    mkObject {[ "INHERIT" := VStr "./node_modules/@appium/docutils/base-mkdocs.yml" ]}
             false true;
    (* 1: BASE_TYPEDOC_JSON.plugin *)
    array_literal [ "@appium/typedoc-plugin-appium";
                    "typedoc-plugin-markdown";
                    "typedoc-plugin-resolve-crossmodule-references" ];
    (* 2: BASE_TYPEDOC_JSON.entryPoints *)
    array_literal [ "." ];
    (* 3: BASE_TYPEDOC_JSON *)
    mkObject (list_to_map
                [ ("$schema", VStr "https://typedoc.org/schema.json");
                  ("cleanOutputDir", VBool true);
                  ("entryPointStrategy", VStr "packages");
                  ("theme", VStr "appium");
                  ("plugin", VRef 1);
                  ("readme", VStr "none");
                  ("entryPoints", VRef 2) ])
             false true;
    (* 4: BASE_TSCONFIG_JSON.compilerOptions *)
    mkObject {[ "outDir" := VStr "build" ]} false false;
    (* 5: BASE_TSCONFIG_JSON.include *)
    array_literal [ "lib"; "src"; "test" ];
    (* 6: BASE_TSCONFIG_JSON *)
    mkObject (list_to_map
                [ ("$schema", VStr "https://json.schemastore.org/tsconfig");
                  ("extends", VStr "@appium/tsconfig/tsconfig.json");
                  ("compilerOptions", VRef 4);
                  ("include", VRef 5) ])
             false true ].

Definition module_world : world := mkWorld module_heap [] [] ∅.

(** Evaluation of an array literal of strings. *)
Definition new_array (items : list string) : M loc := λ w,
  Return (length (heap w))
         (mkWorld (heap w ++ [array_literal items]) (logs w) (spawned w) (files w)).

(** The three `const BASE_... = Object.freeze({...})` statements, run in
    the order of the file; the literals nested in a template are built
    before the template itself. *)
Definition load_module : M (loc * loc * loc) :=
  base_mkdocs_yml ←
    new_object false
      {[ "INHERIT" := VStr "./node_modules/@appium/docutils/base-mkdocs.yml" ]}
    ≫= Object_freeze;
  plugin ← new_array [ "@appium/typedoc-plugin-appium";
                       "typedoc-plugin-markdown";
                       "typedoc-plugin-resolve-crossmodule-references" ];
  entryPoints ← new_array [ "." ];
  base_typedoc_json ←
    new_object false
      (list_to_map
         [ ("$schema", VStr "https://typedoc.org/schema.json");
           ("cleanOutputDir", VBool true);
           ("entryPointStrategy", VStr "packages");
           ("theme", VStr "appium");
           ("plugin", VRef plugin);
           ("readme", VStr "none");
           ("entryPoints", VRef entryPoints) ])
    ≫= Object_freeze;
  compilerOptions ← new_object false {[ "outDir" := VStr "build" ]};
  include ← new_array [ "lib"; "src"; "test" ];
  base_tsconfig_json ←
    new_object false
      (list_to_map
         [ ("$schema", VStr "https://json.schemastore.org/tsconfig");
           ("extends", VStr "@appium/tsconfig/tsconfig.json");
           ("compilerOptions", VRef compilerOptions);
           ("include", VRef include) ])
    ≫= Object_freeze;
  mret (base_mkdocs_yml, base_typedoc_json, base_tsconfig_json).

(** The world a computation ends in, if it ends. *)
Definition world_after {A} (m : M A) (w : world) : world :=
  match m w with
  | Return _ w' | Throw _ w' => w'
  | Stuck => w
  end.

(** Every object of [w] is still there, unchanged, in [w']. *)
Definition heap_preserved (w w' : world) : Prop :=
  ∀ l o, heap w !! l = Some o → heap w' !! l = Some o.

(** The templates are in [w] as the module created them. *)
Definition templates_intact (w : world) : Prop :=
  ∀ l o, module_heap !! l = Some o → heap w !! l = Some o.

(** In whatever way the computation ends, it left the old objects alone. *)
Definition preserves_heap {A} (m : M A) : Prop :=
  ∀ w, match m w with
       | Return _ w' | Throw _ w' => heap_preserved w w'
       | Stuck => True
       end.

(** ** The scaffold task factory *)

(** Modelled from the spec: the optional hooks of section 4.1, each with its
    default filled in by [default_hooks] below. *)
Record ScaffoldHooks (Opts : Type) := mkHooks {
  deserialize : string → M loc;
  serialize : loc → M string;
  transform : loc → Opts → PackageJson → M loc
}.
Arguments mkHooks {Opts}.
Arguments deserialize {Opts}.
Arguments serialize {Opts}.
Arguments transform {Opts}.

Section ScaffoldTask.

(** The collaborators the specification leaves outside its scope: path
    arithmetic, the project metadata reader (whose failures are not
    fatal: the fields are then absent), the file system's faults and the
    JSON and YAML libraries. *)
Variable path_join : string → string → string.
Variable process_cwd : string.
Variable readPackageJson : option string → string → gmap string string → PackageJson.
Variable fs_fault : string → option Error.
Variable JSON_parse : string → M loc.
Variable stringifyJson : loc → M string.
Variable YAML_parse : string → M loc.
Variable stringifyYaml : loc → M string.
Variable URL_pathname : string → option string.

(** Modelled from the spec: reading and writing a file, either of which
    surfaces a fault of the file system as a thrown error (section 4.2,
    step 9). *)
Definition read_file (path : string) : M string := λ w,
  match fs_fault path, files w !! path with
  | Some e, _ => Throw e w
  | None, Some text => Return text w
  | None, None => Throw (mkError "Error" ("ENOENT: " ++ path)) w
  end.

Definition write_file (path text : string) : M unit := λ w,
  match fs_fault path with
  | Some e => Throw e w
  | None => Return tt (mkWorld (heap w) (logs w) (spawned w) (<[path := text]> (files w)))
  end.

(** Modelled from the spec: `createScaffoldTask` of ./init-task, which is
    not among the sources.  Sections 4.1 and 4.2 give its steps: resolve
    the destination; see whether it exists; load the project metadata;
    start from the existing content when there is one and `overwrite` is
    off, and otherwise from a fresh shallow copy of the base template;
    apply the transform hook; serialize; and either log what would be
    written (dry run) or write it and log the success. *)
Definition createScaffoldTask {Opts} (task : Opts → ScaffoldTaskOptions)
    (fileName : string) (baseTemplate : loc) (label : string)
    (hooks : ScaffoldHooks Opts) (opts : Opts) : M unit :=
  let working_dir := default process_cwd (cwd (task opts)) in
  let destination := default (path_join working_dir fileName) (dest (task opts)) in
  λ w,
    let present := bool_decide (is_Some (files w !! destination)) in
    let pkg := readPackageJson (packageJson (task opts)) working_dir (files w) in
    (content ←
       (if present && negb (default false (overwrite (task opts))) then
          existing ← read_file destination;
          deserialize hooks existing
        else
          own ← spread baseTemplate;
          new_object false own);
     final ← transform hooks content opts pkg;
     text ← serialize hooks final;
     if default false (dryRun (task opts)) then
       dryRunLog Info "Would write to file %s: %s" [destination; text]
     else
       write_file destination text;;
       log Success "Initialized %s in %s" [label; destination]) w.

(** Modelled from the spec: the default hooks of `createScaffoldTask`,
    JSON text and the working content as it is. *)
Definition default_hooks {Opts} : ScaffoldHooks Opts :=
  mkHooks JSON_parse stringifyJson (λ content _ _, mret content).

(** init.ts, lines 62-129 *)
Definition initTsConfigJson : InitTsConfigOptions → M unit :=
  createScaffoldTask tsconfig_task NAME_TSCONFIG_JSON BASE_TSCONFIG_JSON
    "TypeScript configuration" default_hooks.

(** Modelled from the spec: `NAME_TYPEDOC_JSON` of ./util. *)
Definition NAME_TYPEDOC_JSON := "typedoc.json".

Definition initTypeDocJson : InitTypeDocOptions → M unit :=
  createScaffoldTask id NAME_TYPEDOC_JSON BASE_TYPEDOC_JSON
    "TypeDoc configuration" default_hooks.

Definition initMkDocs : InitMkDocsOptions → M unit :=
  createScaffoldTask mkdocs_task NAME_MKDOCS_YML BASE_MKDOCS_YML
    "MkDocs configuration"
    (mkHooks YAML_parse stringifyYaml (mkdocs_transform URL_pathname)).

(** The JSON and YAML libraries build new objects and read the ones they
    are given; they do not write to what is already in the heap. *)
Definition libraries_preserve_heap : Prop :=
  (∀ text, preserves_heap (JSON_parse text)) ∧
  (∀ l, preserves_heap (stringifyJson l)) ∧
  (∀ text, preserves_heap (YAML_parse text)) ∧
  (∀ l, preserves_heap (stringifyYaml l)).

(** A computation started in [w] ends in [w'], normally or not. *)
Definition ends_in {A} (m : M A) (w w' : world) : Prop :=
  (∃ a, m w = Return a w') ∨ (∃ e, m w = Throw e w').

(** One invocation of one of the scaffold tasks, or of the mkdocs
    transform on its own. *)
Inductive scaffold_run : world → world → Prop :=
  | run_tsconfig opts w w' :
      ends_in (initTsConfigJson opts) w w' → scaffold_run w w'
  | run_typedoc opts w w' :
      ends_in (initTypeDocJson opts) w w' → scaffold_run w w'
  | run_mkdocs opts w w' :
      ends_in (initMkDocs opts) w w' → scaffold_run w w'
  | run_transform content opts pkg w w' :
      ends_in (mkdocs_transform URL_pathname content opts pkg) w w' →
      scaffold_run w w'.

End ScaffoldTask.

(** ** Small instances of the collaborators, for the examples *)

(** The prefix of [s] before the first of the [stops], and the rest. *)
Fixpoint until_any (stops : list ascii) (s : string) : string * string :=
  match s with
  | EmptyString => (EmptyString, EmptyString)
  | String c rest =>
      if bool_decide (c ∈ stops) then (EmptyString, s)
      else let '(a, b) := until_any stops rest in (String c a, b)
  end.

(** A reading of the WHATWG URL parser for URLs of the shape
    `scheme://authority/path?query#fragment` with a non-empty authority and
    a path that needs no normalisation.  Everything else is reported as
    invalid. *)
Definition URL_pathname_simple (s : string) : option string :=
  let '(scheme, after) := until_any [":"%char] s in
  match scheme, after with
  | String _ _, String ":" (String "/" (String "/" rest)) =>
      let '(authority, tail) := until_any ["/"; "?"; "#"]%char rest in
      let '(path, _) := until_any ["?"; "#"]%char tail in
      match authority with
      | EmptyString => None
      | _ => Some (if String.eqb path "" then "/" else path)
      end
  | _, _ => None
  end.

Definition empty_world : world := mkWorld [] [] [] ∅.
Definition no_task_options := mkTaskOptions None None None None None.
Definition no_mkdocs_options := mkMkDocsOptions no_task_options None None None None None.
Definition no_package := mkPackageJson None None None.

(** A world whose only object is the empty content `{}`, at location 0. *)
Definition blank_content : object := mkObject ∅ false false.
Definition blank_content_world : world := mkWorld [blank_content] [] [] ∅.

(** An existing mkdocs.yml with a site name and a theme, after the
    templates in the heap; options that name the site; a package.json. *)
Definition sample_content : object :=
  mkObject (list_to_map [("site_name", VStr "Old name"); ("theme", VStr "material")])
           false false.
Definition sample_world : world :=
  mkWorld (module_heap ++ [sample_content]) [] [] ∅.
Definition sample_options : InitMkDocsOptions :=
  mkMkDocsOptions no_task_options None None None None (Some "Handbook").
Definition sample_package : PackageJson :=
  mkPackageJson (Some "@appium/docutils") (Some "Documentation utilities")
    (Some (mkRepository (Some "https://github.com/owner/repo.git"))).

(** Options that give nothing but a repository URL. *)
Definition only_repoUrl (u : string) : InitMkDocsOptions :=
  mkMkDocsOptions no_task_options None None (Some u) None None.

(** Options whose repository URL has a single path segment. *)
Definition owner_only_options : InitMkDocsOptions :=
  only_repoUrl "https://github.com/owner".

(** Collaborators that do as little as possible: a parser that returns a
    new empty object, a serializer that returns the empty text, no
    metadata, no file system fault, and a `pip` that exits with code 1
    after printing one line, run through teen_process. *)
Definition parse_nothing : string → M loc := λ _, new_object false ∅.
Definition stringify_nothing : loc → M string := λ _, mret EmptyString.
Definition join_with_slash (dir file : string) : string := dir ++ "/" ++ file.
Definition no_metadata : option string → string → gmap string string → PackageJson :=
  λ _ _ _, no_package.
Definition no_fault : string → option Error := λ _, None.
Definition pip_exits_with_1 : string → list string → gmap string string → subprocess_end :=
  λ _ _ _, Exited 1 "ERROR: No matching distribution found" "".
Definition failing_exec : string → list string → gmap string string → exec_result :=
  teen_process_exec (join " ") pip_exits_with_1.

Definition dry_run_options : InitPythonOptions :=
  mkPythonOptions (mkTaskOptions None None None (Some true) None) (Some "python3").

(** Tasks that only log their name, and options that ask for TypeDoc,
    Python and mkdocs but not for TypeScript. *)
Definition logging_task {Opts} (what : string) : Opts → M unit :=
  λ _, log Info what [].
Definition typedoc_python_mkdocs : InitOptions.t :=
  InitOptions.mk None (Some true) (Some true) (Some true)
    None None None None None None None None None None None None None None.

(** The tsconfig task and then the mkdocs task, started from the heap of
    the freshly loaded module. *)
Definition sample_tsconfig_run : M unit :=
  initTsConfigJson join_with_slash "/project" no_metadata no_fault
    parse_nothing stringify_nothing (mkTsConfigOptions no_task_options None).
Definition sample_mkdocs_run : M unit :=
  initMkDocs join_with_slash "/project" no_metadata no_fault
    parse_nothing stringify_nothing URL_pathname_simple no_mkdocs_options.
Definition after_tsconfig_run : world := world_after sample_tsconfig_run module_world.
Definition after_both_runs : world := world_after sample_mkdocs_run after_tsconfig_run.

(** ** Notions for the further properties *)

(** The four lines the transform can log. *)
Definition site_name_entry (n : string) : log_entry :=
  mkLog "init" Info "Using site name from package.json: %s" [n].
Definition repo_url_entry (u : string) : log_entry :=
  mkLog "init" Info "Using repo URL from package.json: %s" [u].
Definition repo_name_entry (n : string) : log_entry :=
  mkLog "init" Info "Using repo name from package.json: %s" [n].
Definition site_description_entry (d : string) : log_entry :=
  mkLog "init" Info "Using site description URL from package.json: %s" [d].

(** What each block of the transform logs (lines 91-93, 98-100, 109-111
    and 116-118), for a content [c]. *)
Definition site_name_log (opts : InitMkDocsOptions) (c : object) (pkg : PackageJson)
    : list log_entry :=
  if negb (truthy (of_opt (siteName opts) ?? prop c "site_name"))
     && truthy (VStr (default "(no name)" (name pkg)))
  then [site_name_entry (default "(no name)" (name pkg))] else [].

Definition repo_url_log (opts : InitMkDocsOptions) (c : object) (pkg : PackageJson)
    : list log_entry :=
  if negb (truthy (of_opt (repoUrl opts) ?? prop c "repo_url"))
     && truthy (of_opt (repository_url pkg))
  then [repo_url_entry (default EmptyString (repository_url pkg))] else [].

Definition repo_name_log (opts : InitMkDocsOptions) (c : object) (pkg : PackageJson)
    (result : value) : list log_entry :=
  if truthy (resolved_repoUrl opts c pkg) && negb (truthy (given_repoName opts c)) then
    match result with
    | VStr derived => [repo_name_entry derived]
    | _ => []
    end
  else [].

Definition site_description_log (opts : InitMkDocsOptions) (c : object) (pkg : PackageJson)
    : list log_entry :=
  if negb (truthy (of_opt (siteDescription opts) ?? prop c "site_description"))
     && truthy (of_opt (description pkg))
  then [site_description_entry (default EmptyString (description pkg))] else [].

Definition transform_log (opts : InitMkDocsOptions) (c : object) (pkg : PackageJson)
    (repoName : value) : list log_entry :=
  site_name_log opts c pkg ++ repo_url_log opts c pkg
  ++ repo_name_log opts c pkg repoName ++ site_description_log opts c pkg.

(** The object the transform returns for a content [c], once the
    repository name is known. *)
Definition transformed (opts : InitMkDocsOptions) (c : object) (pkg : PackageJson)
    (repoName : value) : object :=
  mkObject
    (<["site_description" := resolved_siteDescription opts c pkg]>
       (<["repo_name" := repoName]>
          (<["repo_url" := resolved_repoUrl opts c pkg]>
             (<["site_name" := resolved_siteName opts c pkg]> (props c)))))
    false false.

(** The condition of line 103: a repository URL and no repository name. *)
Definition derives_repoName (opts : InitMkDocsOptions) (c : object) (pkg : PackageJson) : bool :=
  truthy (resolved_repoUrl opts c pkg) && negb (truthy (given_repoName opts c)).

Definition returned (opts : InitMkDocsOptions) (c : object) (pkg : PackageJson)
    (repoName : value) (w : world) : outcome loc :=
  Return (length (heap w))
    (mkWorld (heap w ++ [transformed opts c pkg repoName])
             (logs w ++ transform_log opts c pkg repoName) (spawned w) (files w)).

(** The transform on a content [c], as one expression. *)
Definition transform_outcome (URL_pathname : string → option string)
    (opts : InitMkDocsOptions) (c : object) (pkg : PackageJson) (w : world) : outcome loc :=
  if derives_repoName opts c pkg then
    match resolved_repoUrl opts c pkg with
    | VStr u =>
        let thrown := with_logs w (site_name_log opts c pkg ++ repo_url_log opts c pkg) in
        match URL_pathname u with
        | None => Throw INVALID_URL thrown
        | Some pathname =>
            match repoName_of_pathname pathname with
            | None => Throw REPLACE_OF_UNDEFINED thrown
            | Some derived => returned opts c pkg (VStr derived) w
            end
        end
    | _ => Stuck
    end
  else returned opts c pkg (given_repoName opts c) w.

(** What a run of the transform on the content [c] at [content] may do to
    the world: add one object and log lines when it returns, log lines
    only when it throws. *)
Definition allocates_and_logs_only (content : loc) (c : object) (w : world)
    (result : outcome loc) : Prop :=
  match result with
  | Return r w' =>
      r = length (heap w) ∧ r ≠ content ∧
      (∃ o, heap w' = (heap w ++ [o])%list) ∧
      heap w' !! content = Some c ∧
      (∃ extra, logs w' = (logs w ++ extra)%list) ∧
      spawned w' = spawned w ∧ files w' = files w
  | Throw e w' =>
      heap w' = heap w ∧ (∃ extra, logs w' = (logs w ++ extra)%list) ∧
      spawned w' = spawned w ∧ files w' = files w
  | Stuck => True
  end.

(** The three lines of a real installation that succeeds. *)
Definition executing_entry (interpreter : string) (cmd_args : list string) : log_entry :=
  mkLog "init" Debug "Executing command: %s %s" [interpreter; join " " cmd_args].
Definition installing_entry : log_entry :=
  mkLog "init" Info "Installing Python dependencies..." [].
Definition installed_entry : log_entry :=
  mkLog "init" Success "Installed Python dependencies (or dependencies already installed)" [].

(** In whatever way the computation ends, it spawned nothing. *)
Definition preserves_spawned {A} (m : M A) : Prop :=
  ∀ w, match m w with
       | Return _ w' | Throw _ w' => spawned w' = spawned w
       | Stuck => True
       end.

(** What the installer has done to the list of spawned commands and to
    the heap once it has ended, by returning or by throwing. *)
Definition spawns_once_unless_dry (dry : bool) (command : string * list string)
    (w : world) (result : outcome unit) : Prop :=
  match result with
  | Return _ w' | Throw _ w' =>
      spawned w' = (spawned w ++ if dry then [] else [command])%list ∧ heap w' = heap w
  | Stuck => True
  end.

(** The same options with another `siteDescription`. *)
Definition with_siteDescription (d : option string) (o : InitOptions.t) : InitOptions.t :=
  InitOptions.mk (InitOptions.typescript o) (InitOptions.typedoc o) (InitOptions.python o)
    (InitOptions.mkdocs o) (InitOptions.tsConfigJson o) (InitOptions.typedocJson o)
    (InitOptions.mkdocsPath o) (InitOptions.packageJson o) (InitOptions.overwrite o)
    (InitOptions.dryRun o) (InitOptions.cwd o) (InitOptions.include o)
    (InitOptions.pythonPath o) (InitOptions.copyright o) (InitOptions.repoName o)
    (InitOptions.repoUrl o) d (InitOptions.siteName o).

(** More sample inputs: the world after the transform of the sample
    content; options that give a repository name, an unparsable URL, the
    URL of a page inside a repository, an empty site name; a subprocess
    that succeeds; options of `init` with nothing set, and with everything
    set in a dry run. *)
Definition sample_transform : M loc :=
  mkdocs_transform URL_pathname_simple 7 sample_options sample_package.
Definition sample_transformed_world : world := world_after sample_transform sample_world.
Definition named_repo_options : InitMkDocsOptions :=
  mkMkDocsOptions no_task_options None (Some "appium/appium") (Some "not a url") None None.
Definition unparsable_options : InitMkDocsOptions := only_repoUrl "not a url".
Definition tree_url_options : InitMkDocsOptions :=
  only_repoUrl "https://github.com/owner/repo/tree/main".
Definition empty_name_options : InitMkDocsOptions :=
  mkMkDocsOptions no_task_options None None (Some "") (Some "") (Some "").
Definition empty_name_transform : M loc :=
  mkdocs_transform URL_pathname_simple 7 empty_name_options sample_package.
Definition succeeding_exec : string → list string → gmap string string → exec_result :=
  λ _ _ _, Resolved 0 "Requirement already satisfied".
Definition no_python_options : InitPythonOptions := mkPythonOptions no_task_options None.
Definition failed_install : M unit :=
  initPython "/pkg/requirements.txt" failing_exec no_python_options.
Definition nothing_enabled : InitOptions.t :=
  InitOptions.mk None None None None
    None None None None None None None None None None None None None None.
Definition everything_dry : InitOptions.t :=
  InitOptions.mk (Some true) (Some true) (Some true) (Some true)
    None None None None None (Some true) None None None None None None None None.

(** * Properties *)

(** ** Tactics for running computations *)

Ltac unfold_monad :=
  unfold mbind, mret, M_bind, M_ret, when, get_prop, spread, new_object,
    dryRunLog, log, log_call, throw, stuck, try_catch in *.

(** Case analysis on a scrutinee that contains no further match. *)
Ltac case_inner H :=
  match type of H with
  | context [match ?x with _ => _ end] =>
      lazymatch x with
      | context [match _ with _ => _ end] => fail
      | _ => destruct x eqn:?
      end
  end.

(** Two worlds that differ by how the appended log lines are grouped. *)
Ltac same_world :=
  f_equal;
  first [ reflexivity
        | rewrite <- ?app_assoc; reflexivity
        | symmetry; apply app_nil_r ].

(** Turns the recorded branch conditions into facts about [truthy] and
    rewrites the goal with them. *)
Ltac use_conditions :=
  repeat match goal with
    | Hx : _ && _ = true |- _ => apply andb_true_iff in Hx as [? ?]
    | Hx : _ && _ = false |- _ => apply andb_false_iff in Hx as [?|?]
    | Hx : negb _ = true |- _ => apply negb_true_iff in Hx
    | Hx : negb _ = false |- _ => apply negb_false_iff in Hx
    end;
  unfold resolved_siteName, resolved_repoUrl, resolved_siteDescription,
    given_repoName, or_else in *;
  repeat match goal with
    | Hx : truthy _ = _ |- _ => rewrite Hx
    end;
  simpl.

Lemma with_logs_nil w : with_logs w [] = w.
Proof. destruct w. unfold with_logs. simpl. by rewrite app_nil_r. Qed.

(** ** The string operations *)

Lemma split_nonempty sep s : split sep s ≠ [].
Proof. destruct s; simpl; [done|]. repeat case_match; done. Qed.

(** A segment free of the separator, then the separator: the segment is
    the first element of the split. *)
Lemma split_segment sep (seg rest : string) :
  (∀ c, c ∈ list_ascii_of_string seg → c ≠ sep) →
  split sep (seg ++ String sep rest) = seg :: split sep rest.
Proof.
  induction seg as [|c seg IH]; simpl; intros Hfree.
  - by rewrite Ascii.eqb_refl.
  - destruct (Ascii.eqb_spec c sep) as [->|Hne].
    + exfalso. apply (Hfree sep); [left|done].
    + rewrite IH; [done|]. intros c' Hc'. apply Hfree. by right.
Qed.

Lemma split_last sep (seg : string) :
  (∀ c, c ∈ list_ascii_of_string seg → c ≠ sep) →
  split sep seg = [seg].
Proof.
  induction seg as [|c seg IH]; simpl; intros Hfree; [done|].
  destruct (Ascii.eqb_spec c sep) as [->|Hne].
  - exfalso. apply (Hfree sep); [left|done].
  - rewrite IH; [done|]. intros c' Hc'. apply Hfree. by right.
Qed.

Lemma length_append (a b : string) :
  String.length (a ++ b) = String.length a + String.length b.
Proof. induction a as [|c a IH]; simpl; [done|]. by rewrite IH. Qed.

Lemma replace_dot_git_unfold (s : string) :
  replace_dot_git s =
    if String.eqb s ".git" then EmptyString
    else match s with
         | EmptyString => EmptyString
         | String c rest => String c (replace_dot_git rest)
         end.
Proof. destruct s; reflexivity. Qed.

Lemma replace_dot_git_suffix (repo : string) :
  replace_dot_git (repo ++ ".git") = repo.
Proof.
  induction repo as [|c repo IH]; [reflexivity|].
  change (String c repo ++ ".git") with (String c (repo ++ ".git")).
  rewrite replace_dot_git_unfold, IH.
  destruct (String.eqb_spec (String c (repo ++ ".git")) ".git") as [Heq|]; [|done].
  apply (f_equal String.length) in Heq. simpl in Heq.
  rewrite length_append in Heq. simpl in Heq. lia.
Qed.

(** The derivation of lines 104-108 on a path `/owner/repo.git`. *)
Lemma repoName_of_pathname_owner_repo_git (owner repo : string) :
  (∀ c, c ∈ list_ascii_of_string owner → c ≠ "/"%char) →
  (∀ c, c ∈ list_ascii_of_string (repo ++ ".git") → c ≠ "/"%char) →
  repoName_of_pathname ("/" ++ owner ++ "/" ++ repo ++ ".git") = Some (owner ++ "/" ++ repo).
Proof.
  intros Howner Hrepo. unfold repoName_of_pathname.
  change (slice1 ("/" ++ owner ++ "/" ++ repo ++ ".git"))
    with (owner ++ String "/" (repo ++ ".git")).
  rewrite split_segment by done. rewrite split_last by done.
  simpl. by rewrite replace_dot_git_suffix.
Qed.

(** ** The mkdocs transform *)

Section TransformFacts.

Context (URL_pathname : string → option string).
Abbreviation transform := (mkdocs_transform URL_pathname).

(** [derive_repoName] returns exactly on a string URL that parses and
    whose path has a second segment; it then at most logs. *)
Lemma derive_repoName_Return (u v : value) (w w' : world) :
  derive_repoName URL_pathname u w = Return v w' →
  ∃ s pathname derived extra,
    u = VStr s ∧ URL_pathname s = Some pathname ∧
    repoName_of_pathname pathname = Some derived ∧
    v = VStr derived ∧ w' = with_logs w extra.
Proof.
  unfold derive_repoName, repoName_of_pathname. unfold_monad. intros H.
  repeat (case_inner H; simpl in H; try done).
  all: injection H as <- <-; do 3 eexists.
  - exists [mkLog "init" Info "Using repo name from package.json: %s"
              [join "/" [default "" (split "/" (slice1 s0) !! 0%nat); replace_dot_git s1]]].
    rewrite Heqo0. done.
  - exists []. rewrite Heqo0, with_logs_nil. done.
Qed.

Lemma derive_repoName_Throw (u : value) (e : Error) (w w' : world) :
  derive_repoName URL_pathname u w = Throw e w' →
  w' = w ∧
  ∃ s, u = VStr s ∧
    ((URL_pathname s = None ∧ e = INVALID_URL) ∨
     (∃ pathname, URL_pathname s = Some pathname ∧
        repoName_of_pathname pathname = None ∧ e = REPLACE_OF_UNDEFINED)).
Proof.
  unfold derive_repoName, repoName_of_pathname. unfold_monad. intros H.
  repeat (case_inner H; simpl in H; try done).
  all: injection H as <- <-; split; [done|]; eexists; split; [done|].
  - right. eexists. by rewrite Heqo0.
  - by left.
Qed.

Lemma derive_repoName_Stuck (u : value) (w : world) :
  derive_repoName URL_pathname u w = Stuck → ∀ s, u ≠ VStr s.
Proof.
  unfold derive_repoName. unfold_monad. intros H.
  repeat (case_inner H; simpl in H; try done).
Qed.

Ltac step_transform H Hc :=
  first
    [ match goal with
      | Hd : derive_repoName _ _ _ = Return _ _ |- _ =>
          apply derive_repoName_Return in Hd as (? & ? & ? & ? & ? & ? & ? & ? & ?);
          subst
      | Hd : derive_repoName _ _ _ = Throw _ _ |- _ =>
          apply derive_repoName_Throw in Hd as (? & ? & ? & ?);
          subst
      end
    | case_inner H ];
  simpl in H; rewrite ?Hc in H; try done.

(** A returned result: one new object, the spread of the content with
    the four keys set, and some more log lines. *)
Lemma transform_returns content opts pkg w r w' :
  transform content opts pkg w = Return r w' →
  ∃ c repoName extra,
    heap w !! content = Some c ∧
    r = length (heap w) ∧
    repoName_outcome URL_pathname opts c pkg repoName ∧
    w' = mkWorld
           (heap w ++
              [mkObject
                 (<["site_description" := resolved_siteDescription opts c pkg]>
                    (<["repo_name" := repoName]>
                       (<["repo_url" := resolved_repoUrl opts c pkg]>
                          (<["site_name" := resolved_siteName opts c pkg]> (props c)))))
                 false false])
           (logs w ++ extra) (spawned w) (files w).
Proof.
  unfold mkdocs_transform. unfold_monad. intros H.
  destruct (heap w !! content) as [c|] eqn:Hc; [|done].
  exists c. destruct w as [h l sp f]. simpl in *.
  repeat step_transform H Hc.
  all: injection H as <- <-.
  all: unfold repoName_outcome; use_conditions; try congruence.
  all: eexists _, _; split_and!; [done|done| |]; [|same_world].
  all: eauto 10.
Qed.

(** The transform throws only out of the derivation of the repository
    name, and has then done no more than log. *)
Lemma transform_throws content opts pkg w e w' :
  transform content opts pkg w = Throw e w' →
  ∃ c u extra,
    heap w !! content = Some c ∧
    w' = with_logs w extra ∧
    truthy (given_repoName opts c) = false ∧
    resolved_repoUrl opts c pkg = VStr u ∧
    ((URL_pathname u = None ∧ e = INVALID_URL) ∨
     (∃ pathname, URL_pathname u = Some pathname ∧
        repoName_of_pathname pathname = None ∧ e = REPLACE_OF_UNDEFINED)).
Proof.
  unfold mkdocs_transform. unfold_monad. intros H.
  destruct (heap w !! content) as [c|] eqn:Hc; [|done].
  exists c. destruct w as [h l sp f]. simpl in *.
  repeat step_transform H Hc.
  all: injection H as <- <-.
  all: use_conditions; try congruence.
  all: unfold with_logs; simpl.
  all: eexists _, _; split_and!; [done| |done|done|done]; same_world.
Qed.

Lemma transform_stuck content opts pkg w :
  transform content opts pkg w = Stuck →
  heap w !! content = None ∨
  ∃ c, heap w !! content = Some c ∧
       truthy (resolved_repoUrl opts c pkg) = true ∧
       ∀ s, resolved_repoUrl opts c pkg ≠ VStr s.
Proof.
  unfold mkdocs_transform. unfold_monad. intros H.
  destruct (heap w !! content) as [c|] eqn:Hc; [|by left].
  right. exists c. destruct w as [h l sp f]. simpl in *.
  repeat (step_transform H Hc).
  all: match goal with
       | Hd : derive_repoName _ _ _ = Stuck |- _ =>
           pose proof (derive_repoName_Stuck _ _ Hd)
       end.
  all: use_conditions; try congruence.
  all: split_and!; done.
Qed.

(** The object a returned result points to. *)
Lemma transform_result content opts pkg w r w' :
  transform content opts pkg w = Return r w' →
  ∃ c o repoName,
    heap w !! content = Some c ∧ heap w' !! r = Some o ∧
    repoName_outcome URL_pathname opts c pkg repoName ∧
    props o = <["site_description" := resolved_siteDescription opts c pkg]>
                (<["repo_name" := repoName]>
                   (<["repo_url" := resolved_repoUrl opts c pkg]>
                      (<["site_name" := resolved_siteName opts c pkg]> (props c)))) ∧
    prop o "site_name" = resolved_siteName opts c pkg ∧
    prop o "repo_url" = resolved_repoUrl opts c pkg ∧
    prop o "repo_name" = repoName ∧
    prop o "site_description" = resolved_siteDescription opts c pkg.
Proof.
  intros H. apply transform_returns in H as (c & rn & extra & Hc & -> & Hrn & ->).
  exists c. eexists. exists rn. split; [done|]. split.
  { simpl. by apply list_lookup_middle. }
  split; [done|]. split; [done|].
  unfold prop. simpl. by simplify_map_eq.
Qed.

Lemma or_else_precedence (explicit : option string) (existing fallback : value) :
  chosen_by_precedence explicit existing fallback
    (or_else (of_opt explicit ?? existing) fallback).
Proof.
  unfold chosen_by_precedence, or_else, coalesce. split_and!.
  - intros s -> Hs. simpl. by apply String.eqb_neq in Hs as ->.
  - intros -> Ht. simpl. by rewrite Ht.
  - intros -> Ht. simpl. by rewrite Ht.
Qed.

(** ** C1, as amended *)

(** C1 (amended).  When the transform returns, each of `site_name`,
    `repo_url` and `site_description` is the explicit option if that is a
    non-empty string; with no option, the existing value if it is truthy;
    and otherwise the fallback: the package name or else the placeholder
    "(no name)", `pkg.repository?.url`, `pkg.description`.  `repo_name`
    follows the same first two rules and is otherwise derived from the
    resolved `repo_url`, whatever its source, or left as it was when no
    URL was resolved. *)
Theorem mkdocs_field_precedence content opts pkg w r w' c :
  heap w !! content = Some c →
  transform content opts pkg w = Return r w' →
  ∃ o, heap w' !! r = Some o ∧ fields_follow_precedence URL_pathname opts c pkg o.
Proof.
  intros Hc H.
  apply transform_result in H
    as (c' & o & rn & Hc' & Ho & Hrn & _ & H1 & H2 & H3 & H4).
  assert (c' = c) as -> by congruence.
  exists o. unfold fields_follow_precedence. rewrite H1, H2, H3, H4. split; [done|].
  split; [apply or_else_precedence|].
  split; [apply or_else_precedence|].
  split; [apply or_else_precedence|].
  unfold repoName_outcome, given_repoName in Hrn. split_and!.
  - intros s Hs Hne. rewrite Hs in Hrn. simpl in Hrn.
    apply String.eqb_neq in Hne. unfold coalesce in Hrn. simpl in Hrn.
    rewrite Hne in Hrn. simpl in Hrn. by rewrite andb_false_r in Hrn.
  - intros Hs Ht. rewrite Hs in Hrn. unfold coalesce in Hrn. simpl in Hrn.
    rewrite Ht in Hrn. simpl in Hrn. by rewrite andb_false_r in Hrn.
  - intros Hs Ht. rewrite Hs in Hrn. unfold coalesce in Hrn. simpl in Hrn.
    rewrite Ht in Hrn. simpl in Hrn. rewrite andb_true_r in Hrn.
    by destruct (truthy (resolved_repoUrl opts c pkg)).
Qed.

(** ** C2 *)

(** C2.  When the resolved repository URL is
    "https://github.com/owner/repo.git", whose pathname is
    "/owner/repo.git", and neither the `repoName` option nor an existing
    `repo_name` is there, the transform returns, `repo_url` is that URL
    and `repo_name` is "owner/repo". *)
Theorem repo_name_of_git_url content opts pkg w c :
  heap w !! content = Some c →
  URL_pathname "https://github.com/owner/repo.git" = Some "/owner/repo.git" →
  resolved_repoUrl opts c pkg = VStr "https://github.com/owner/repo.git" →
  repoName opts = None →
  props c !! "repo_name" = None →
  ∃ r w' o,
    transform content opts pkg w = Return r w' ∧
    heap w' !! r = Some o ∧
    props o !! "repo_url" = Some (VStr "https://github.com/owner/repo.git") ∧
    props o !! "repo_name" = Some (VStr "owner/repo").
Proof.
  intros Hc Hurl Hres Hopt Hex.
  assert (given_repoName opts c = VUndefined) as Hgiven.
  { unfold given_repoName, prop. by rewrite Hopt, Hex. }
  destruct (transform content opts pkg w) as [r w'|e w'|] eqn:H.
  - exists r, w'.
    apply transform_result in H
      as (c' & o & rn & Hc' & Ho & Hrn & Hprops & _).
    assert (c' = c) as -> by congruence.
    exists o. split; [done|]. split; [done|].
    unfold repoName_outcome in Hrn. rewrite Hres, Hgiven in Hrn. simpl in Hrn.
    destruct Hrn as (u & pathname & derived & [= <-] & Hp & Hd & ->).
    rewrite Hurl in Hp. injection Hp as <-.
    vm_compute in Hd. injection Hd as <-.
    rewrite Hprops, Hres. by simplify_map_eq.
  - exfalso. apply transform_throws in H
      as (c' & u & extra & Hc' & _ & _ & Hu & Hcases).
    assert (c' = c) as -> by congruence.
    rewrite Hres in Hu. injection Hu as <-.
    destruct Hcases as [[Hp _]|(pathname & Hp & Hd & _)]; [congruence|].
    rewrite Hurl in Hp. injection Hp as <-. by vm_compute in Hd.
  - exfalso. apply transform_stuck in H as [H|(c' & Hc' & _ & Hns)]; [congruence|].
    assert (c' = c) as -> by congruence.
    by apply (Hns _ Hres).
Qed.

(** ** C3 *)

(** C3 (what the code does).  With a resolved repository URL whose path
    has fewer than two segments and no repository name given, the
    transform does not complete: reading `repo.replace` throws a
    TypeError, `repo` being `undefined`. *)
Theorem short_path_throws content opts pkg w c u pathname :
  heap w !! content = Some c →
  resolved_repoUrl opts c pkg = VStr u →
  u ≠ "" →
  URL_pathname u = Some pathname →
  length (split "/" (slice1 pathname)) < 2 →
  truthy (given_repoName opts c) = false →
  ∃ w', transform content opts pkg w = Throw REPLACE_OF_UNDEFINED w'.
Proof.
  intros Hc Hres Hne Hp Hlen Hgiven.
  assert (repoName_of_pathname pathname = None) as Hnone.
  { unfold repoName_of_pathname.
    rewrite (lookup_ge_None_2 (split "/" (slice1 pathname)) 1); [done|lia]. }
  assert (truthy (VStr u) = true) as Htruthy.
  { simpl. by apply String.eqb_neq in Hne as ->. }
  destruct (transform content opts pkg w) as [r w'|e w'|] eqn:H.
  - exfalso. apply transform_returns in H
      as (c' & rn & extra & Hc' & _ & Hrn & _).
    assert (c' = c) as -> by congruence.
    unfold repoName_outcome in Hrn. rewrite Hres, Htruthy, Hgiven in Hrn.
    destruct Hrn as (u' & p' & d & [= <-] & Hp' & Hd & _). congruence.
  - exists w'. apply transform_throws in H
      as (c' & u' & extra & Hc' & _ & _ & Hu & Hcases).
    assert (c' = c) as -> by congruence.
    rewrite Hres in Hu. injection Hu as <-.
    destruct Hcases as [[Hp' _]|(p' & _ & _ & ->)]; [congruence|done].
  - exfalso. apply transform_stuck in H as [H|(c' & Hc' & _ & Hns)]; [congruence|].
    assert (c' = c) as -> by congruence.
    by apply (Hns _ Hres).
Qed.

(** ** C4 *)

(** C4.  The returned content has, at every key other than `site_name`,
    `repo_url`, `repo_name` and `site_description`, exactly what the
    input content has there: the same value, or no value. *)
Theorem mkdocs_transform_frame content opts pkg w r w' c :
  heap w !! content = Some c →
  transform content opts pkg w = Return r w' →
  ∃ o, heap w' !! r = Some o ∧
       ∀ k, k ∉ MKDOCS_KEYS → props o !! k = props c !! k.
Proof.
  intros Hc H.
  apply transform_result in H as (c' & o & rn & Hc' & Ho & _ & Hprops & _).
  assert (c' = c) as -> by congruence.
  exists o. split; [done|]. intros k Hk. rewrite Hprops.
  unfold MKDOCS_KEYS in Hk. rewrite !not_elem_of_cons in Hk.
  destruct Hk as (? & ? & ? & ? & _).
  by rewrite !lookup_insert_ne.
Qed.

(** ** C5 *)

(** C5 (what the code does).  With empty content, no options and a
    package.json without a name, the transform logs that it uses a site
    name from package.json: the placeholder. *)
Theorem placeholder_logged_as_package_name :
  name no_package = None ∧
  ∃ r w' entry,
    transform 0 no_mkdocs_options no_package blank_content_world = Return r w' ∧
    logs w' = [entry] ∧
    level entry = Info ∧
    rendered entry = "Using site name from package.json: (no name)".
Proof.
  split; [reflexivity|]. do 3 eexists.
  split; [vm_compute; reflexivity|].
  split; [reflexivity|]. split; reflexivity.
Qed.

(** ** C10 *)

(** C10.  Whatever `copyright` is, or whether it is there at all, the
    transform ends in the same way: same result, same heap, same log. *)
Theorem copyright_is_ignored content opts pkg (c1 c2 : option string) w :
  transform content (with_copyright c1 opts) pkg w
  = transform content (with_copyright c2 opts) pkg w.
Proof. reflexivity. Qed.

End TransformFacts.

(** ** The Python installer *)

Lemma append_empty (s : string) : s ++ "" = s.
Proof.
  induction s as [|c s IH]; [done|].
  change (String c (s ++ "") = String c s). by rewrite IH.
Qed.

Section PythonFacts.

Context (REQUIREMENTS_TXT_PATH : string).
Context (exec : string → list string → gmap string string → exec_result).
Abbreviation install := (initPython REQUIREMENTS_TXT_PATH exec).
Abbreviation pip_args := (pip_install_args REQUIREMENTS_TXT_PATH).

(** C7 (what the code does).  Outside a dry run, when the subprocess exits
    with a code other than 0, teen_process rejects, lines 148-150 are not
    reached, and `initPython` throws a DocutilsError whose message is the
    fixed text followed by the message of the rejection, which names the
    command and the exit code: the stdout of the subprocess is not in
    it. *)
Theorem nonzero_exit_reports_command_only (quote : list string → string)
    (run : string → list string → gmap string string → subprocess_end)
    opts w code stdout stderr :
  default false (dryRun (python_task opts)) = false →
  run (default NAME_PYTHON (pythonPath opts)) pip_args (files w)
    = Exited code stdout stderr →
  code ≠ 0%Z →
  ∃ w',
    initPython REQUIREMENTS_TXT_PATH (teen_process_exec quote run) opts w
    = Throw (DocutilsError
               (INSTALL_FAILED
                  ++ exit_message quote (default NAME_PYTHON (pythonPath opts)) pip_args code))
        w' ∧
    spawned w' = (spawned w ++ [(default NAME_PYTHON (pythonPath opts), pip_args)])%list.
Proof.
  intros Hdry Hrun Hcode. unfold initPython. rewrite Hdry.
  unfold_monad. unfold await_exec, teen_process_exec. simpl. rewrite Hrun.
  apply Z.eqb_neq in Hcode as ->. simpl.
  eexists. split; reflexivity.
Qed.

(** When `exec` itself rejects, the message of its error is what the
    DocutilsError reports. *)
Lemma rejected_exec_reports_message opts w err :
  default false (dryRun (python_task opts)) = false →
  exec (default NAME_PYTHON (pythonPath opts)) pip_args (files w) = Rejected err →
  ∃ w',
    install opts w
    = Throw (DocutilsError
               ("Could not install Python dependencies. Reason: " ++ message err)) w'.
Proof.
  intros Hdry Hexec. unfold initPython. rewrite Hdry.
  unfold_monad. unfold await_exec. simpl. rewrite Hexec. by eexists.
Qed.

(** C8.  A dry run with `pythonPath` "python3" logs, under the dry-run
    tag, the command `python3 -m pip install -r <requirements>`, and
    returns; nothing is spawned, no file and no object is touched. *)
Theorem dry_run_logs_command opts w :
  dryRun (python_task opts) = Some true →
  pythonPath opts = Some "python3" →
  ∃ w' entry done,
    install opts w = Return tt w' ∧
    logs w' = (logs w ++ [entry; done])%list ∧
    tag entry = "dry-run" ∧ level entry = Info ∧
    rendered entry
      = "Would execute command: python3 -m pip install -r " ++ REQUIREMENTS_TXT_PATH ∧
    level done = Success ∧
    spawned w' = spawned w ∧ files w' = files w ∧ heap w' = heap w.
Proof.
  intros Hdry Hpath. unfold initPython. rewrite Hdry, Hpath.
  unfold_monad. simpl. eexists _, _, _. split; [reflexivity|]. simpl.
  rewrite <- app_assoc. split; [reflexivity|].
  split_and!; try reflexivity.
  unfold rendered. simpl. by rewrite append_empty.
Qed.

End PythonFacts.

(** ** The orchestrator *)

Section InitFacts.

Context (REQUIREMENTS_TXT_PATH : string).
Context (exec : string → list string → gmap string string → exec_result).
Context (initTsConfigJson : InitTsConfigOptions → M unit).
Context (initTypeDocJson : InitTypeDocOptions → M unit).
Context (initMkDocs : InitMkDocsOptions → M unit).

Abbreviation run_init :=
  (init REQUIREMENTS_TXT_PATH exec initTsConfigJson initTypeDocJson initMkDocs).
Abbreviation run_one :=
  (run_step REQUIREMENTS_TXT_PATH exec initTsConfigJson initTypeDocJson initMkDocs).
Abbreviation run_all :=
  (run_in_order REQUIREMENTS_TXT_PATH exec initTsConfigJson initTypeDocJson initMkDocs).

(** A failure in the middle of a list of steps is the outcome of the
    whole list: the steps after it do not run. *)
Lemma run_in_order_aborts (before after : list step) (s : step) w w1 e w2 :
  run_all before w = Return tt w1 →
  run_one s w1 = Throw e w2 →
  run_all (before ++ s :: after)%list w = Throw e w2.
Proof.
  revert w. induction before as [|s0 before IH]; simpl; intros w Hbefore Hs.
  - injection Hbefore as ->. by rewrite Hs.
  - destruct (run_one s0 w) as [[] w0|e0 w0|]; [|done..]. by apply IH.
Qed.

Lemma init_is_run_in_order o w :
  run_init o w = run_all (enabled_steps o) (after_warning o w).
Proof.
  unfold init, enabled_steps, after_warning, warning_due.
  destruct (enabled (InitOptions.typescript o)),
           (enabled (InitOptions.typedoc o)),
           (enabled (InitOptions.python o)),
           (enabled (InitOptions.mkdocs o)).
  all: cbn [app].
  all: cbv [run_in_order run_step negb andb mbind mret M_bind M_ret
              when log log_call with_logs].
  all: repeat (try reflexivity;
               match goal with
               | |- context [match ?x with _ => _ end] =>
                   lazymatch x with
                   | context [match _ with _ => _ end] => fail
                   | _ => destruct x as [[] ?|? ?|]
                   end
               end).
Qed.

Lemma enabled_steps_in_order o :
  StronglySorted lt (step_rank <$> enabled_steps o).
Proof.
  unfold enabled_steps.
  destruct (enabled (InitOptions.typescript o)),
           (enabled (InitOptions.typedoc o)),
           (enabled (InitOptions.python o)),
           (enabled (InitOptions.mkdocs o)); simpl.
  all: repeat constructor; lia.
Qed.

(** C9.  `init` is the run, in order and up to the first failure, of the
    steps whose flag is set, tsconfig before typedoc before Python before
    mkdocs; a step that throws ends `init` with that very error and
    world, so that nothing catches it and no later step runs.  With
    `typedoc` set and `typescript` not, the warning is logged first, no
    tsconfig step is among the steps, and the typedoc scaffold is the
    first of them. *)
Theorem init_sequential_first_failure_aborts o w :
  run_init o w = run_all (enabled_steps o) (after_warning o w) ∧
  StronglySorted lt (step_rank <$> enabled_steps o) ∧
  (∀ before s after w1 e w2,
     enabled_steps o = (before ++ s :: after)%list →
     run_all before (after_warning o w) = Return tt w1 →
     run_one s w1 = Throw e w2 →
     run_init o w = Throw e w2) ∧
  (enabled (InitOptions.typedoc o) = true →
   enabled (InitOptions.typescript o) = false →
   logs (after_warning o w) = (logs w ++ [mkLog "init" Warn TSCONFIG_WARNING []])%list ∧
   (∀ s, s ∈ enabled_steps o → is_tsconfig_step s = false) ∧
   ∃ rest, enabled_steps o = ScaffoldTypeDoc (typedoc_step_options o) :: rest).
Proof.
  split; [apply init_is_run_in_order|].
  split; [apply enabled_steps_in_order|].
  split.
  - intros before s after w1 e w2 Hsteps Hbefore Hs.
    rewrite init_is_run_in_order, Hsteps. by eapply run_in_order_aborts.
  - intros Htd Hts. unfold after_warning, warning_due, enabled_steps.
    rewrite Htd, Hts. simpl. split; [done|]. split; [|by eexists].
    intros s Hs.
    destruct (enabled (InitOptions.python o)), (enabled (InitOptions.mkdocs o));
      simpl in Hs;
      repeat (apply elem_of_cons in Hs as [->|Hs]; [done|]);
      by apply elem_of_nil in Hs.
Qed.

End InitFacts.

(** ** The base templates *)

Lemma heap_preserved_refl w : heap_preserved w w.
Proof. by intros l o. Qed.

Lemma heap_preserved_trans w1 w2 w3 :
  heap_preserved w1 w2 → heap_preserved w2 w3 → heap_preserved w1 w3.
Proof. intros H12 H23 l o Hl. by apply H23, H12. Qed.

Lemma heap_preserved_grow w w' (new : list object) :
  heap w' = (heap w ++ new)%list → heap_preserved w w'.
Proof. intros Hw l o Hl. rewrite Hw. by apply lookup_app_l_Some. Qed.

Lemma heap_preserved_same w w' : heap w' = heap w → heap_preserved w w'.
Proof. intros Hw l o Hl. by rewrite Hw. Qed.

Lemma preserves_ret {A} (a : A) : preserves_heap (mret a).
Proof. intros w. apply heap_preserved_refl. Qed.

Lemma preserves_bind {A B} (m : M A) (k : A → M B) :
  preserves_heap m → (∀ a, preserves_heap (k a)) → preserves_heap (m ≫= k).
Proof.
  intros Hm Hk w. specialize (Hm w). unfold mbind, M_bind.
  destruct (m w) as [a w1|e w1|]; [|done..].
  specialize (Hk a w1). destruct (k a w1); [| |done];
    by eapply heap_preserved_trans.
Qed.

Lemma preserves_log_call t lv f a : preserves_heap (log_call t lv f a).
Proof. intros w. by apply heap_preserved_same. Qed.

Lemma preserves_spread l : preserves_heap (spread l).
Proof.
  intros w. unfold spread. destruct (heap w !! l); [apply heap_preserved_refl|done].
Qed.

Lemma preserves_new_object arr ps : preserves_heap (new_object arr ps).
Proof. intros w. by eapply heap_preserved_grow. Qed.

Lemma preserves_transform URL_pathname content opts pkg :
  preserves_heap (mkdocs_transform URL_pathname content opts pkg).
Proof.
  intros w. destruct (mkdocs_transform _ _ _ _ w) as [r w'|e w'|] eqn:H; [| |done].
  - apply transform_returns in H as (c & rn & extra & _ & _ & _ & ->).
    by eapply heap_preserved_grow.
  - apply transform_throws in H as (c & u & extra & _ & -> & _).
    by apply heap_preserved_same.
Qed.

Section ScaffoldFacts.

Context (path_join : string → string → string) (process_cwd : string).
Context (readPackageJson : option string → string → gmap string string → PackageJson).
Context (fs_fault : string → option Error).
Context (JSON_parse : string → M loc) (stringifyJson : loc → M string).
Context (YAML_parse : string → M loc) (stringifyYaml : loc → M string).
Context (URL_pathname : string → option string).

Abbreviation one_run :=
  (scaffold_run path_join process_cwd readPackageJson fs_fault
     JSON_parse stringifyJson YAML_parse stringifyYaml URL_pathname).

Abbreviation libs_preserve :=
  (libraries_preserve_heap JSON_parse stringifyJson YAML_parse stringifyYaml).

Lemma preserves_read_file path : preserves_heap (read_file fs_fault path).
Proof.
  intros w. unfold read_file.
  destruct (fs_fault path), (files w !! path); apply heap_preserved_refl.
Qed.

Lemma preserves_write_file path text : preserves_heap (write_file fs_fault path text).
Proof.
  intros w. unfold write_file.
  destruct (fs_fault path); [apply heap_preserved_refl|].
  by apply heap_preserved_same.
Qed.

Lemma preserves_createScaffoldTask {Opts} (task : Opts → ScaffoldTaskOptions)
    fileName baseTemplate label (hooks : ScaffoldHooks Opts) opts :
  (∀ text, preserves_heap (deserialize hooks text)) →
  (∀ l, preserves_heap (serialize hooks l)) →
  (∀ content o pkg, preserves_heap (transform hooks content o pkg)) →
  preserves_heap
    (createScaffoldTask path_join process_cwd readPackageJson fs_fault
       task fileName baseTemplate label hooks opts).
Proof.
  intros Hde Hse Htr w. unfold createScaffoldTask.
  match goal with
  | |- match ?m w with _ => _ end => assert (preserves_heap m) as Hm
  end; [|apply Hm].
  apply preserves_bind.
  { case_match.
    - apply preserves_bind; [apply preserves_read_file|done].
    - apply preserves_bind; [apply preserves_spread|].
      intros own. apply preserves_new_object. }
  intros content. apply preserves_bind; [done|].
  intros final. apply preserves_bind; [done|].
  intros text. case_match.
  - apply preserves_log_call.
  - apply preserves_bind; [apply preserves_write_file|].
    intros _. apply preserves_log_call.
Qed.

Lemma ends_in_preserved {A} (m : M A) w w' :
  preserves_heap m → ends_in m w w' → heap_preserved w w'.
Proof.
  intros Hm [[a Ha]|[e He]]; specialize (Hm w); by rewrite ?Ha, ?He in Hm.
Qed.

Lemma scaffold_run_preserved w w' :
  libs_preserve → one_run w w' → heap_preserved w w'.
Proof.
  intros (Hjp & Hjs & Hyp & Hys) Hrun.
  destruct Hrun as [opts w w' H|opts w w' H|opts w w' H|content opts pkg w w' H];
    (eapply ends_in_preserved; [|exact H]).
  - apply preserves_createScaffoldTask; [done..|]. intros; apply preserves_ret.
  - apply preserves_createScaffoldTask; [done..|]. intros; apply preserves_ret.
  - apply preserves_createScaffoldTask; [done..|]. intros; apply preserves_transform.
  - apply preserves_transform.
Qed.

(** C6.  Through any number of invocations of the three scaffold tasks
    and of the mkdocs transform, every object of the heap stays as it
    was: in particular the three base templates, and the arrays and
    objects nested in them, are after the runs what the module made
    them. *)
Theorem base_templates_never_mutated w w' :
  libs_preserve →
  templates_intact w →
  rtc one_run w w' →
  templates_intact w' ∧ heap_preserved w w'.
Proof.
  intros Hlib Hw Hruns.
  assert (heap_preserved w w') as Hpres.
  { induction Hruns as [w|w w1 w' Hrun _ IH].
    - apply heap_preserved_refl.
    - eapply heap_preserved_trans; [by apply scaffold_run_preserved|].
      apply IH. intros l o Hl. eapply scaffold_run_preserved; [done..|]. by apply Hw. }
  split; [|done]. intros l o Hl. by apply Hpres, Hw.
Qed.

End ScaffoldFacts.

(** ** The properties at work on sample inputs *)

(** The sample content is the object after the seven of the module. *)
Example sample_content_location : heap sample_world !! 7%nat = Some sample_content.
Proof. reflexivity. Qed.

(** C1 as worded fails on the empty content with no options
    and an empty package.json: the site name is then the placeholder
    "(no name)", where the worded precedence leaves the field absent. *)
Lemma placeholder_site_name_not_as_worded :
  ∃ r w' o,
    mkdocs_transform URL_pathname_simple 0 no_mkdocs_options no_package
      blank_content_world = Return r w' ∧
    heap w' !! r = Some o ∧
    prop o "site_name" = VStr "(no name)" ∧
    worded_precedence (siteName no_mkdocs_options) (prop blank_content "site_name")
      (name no_package) = VUndefined ∧
    ¬ fields_as_worded URL_pathname_simple no_mkdocs_options blank_content no_package o.
Proof.
  do 3 eexists. split; [vm_compute; reflexivity|].
  split; [reflexivity|]. split; [reflexivity|]. split; [reflexivity|].
  intros (Hname & _). vm_compute in Hname. discriminate Hname.
Qed.

(** The other URL of the same kind, "https://github.com/", whose pathname
    is "/": the transform throws in the same way. *)
Example root_path_throws :
  ∃ w', mkdocs_transform URL_pathname_simple 0 (only_repoUrl "https://github.com/")
          no_package blank_content_world = Throw REPLACE_OF_UNDEFINED w'.
Proof. eexists. vm_compute. reflexivity. Qed.

(** A path with two segments of which one is empty does go through, and
    gives the malformed name as it is. *)
Example trailing_slash_completes :
  ∃ r w' o,
    mkdocs_transform URL_pathname_simple 0 (only_repoUrl "https://github.com/owner/")
      no_package blank_content_world = Return r w' ∧
    heap w' !! r = Some o ∧ prop o "repo_name" = VStr "owner/".
Proof. do 3 eexists. split; [vm_compute; reflexivity|]. split; reflexivity. Qed.

(** The repository name derived from a URL given as an option is logged
    as coming from package.json, which here has no repository at all. *)
Example derived_repo_name_logged_as_from_package :
  repository no_package = None ∧
  ∃ r w',
    mkdocs_transform URL_pathname_simple 0
      (only_repoUrl "https://github.com/owner/repo.git") no_package blank_content_world
      = Return r w' ∧
    rendered <$> logs w'
      = ["Using site name from package.json: (no name)";
         "Using repo name from package.json: owner/repo"].
Proof. split; [reflexivity|]. do 2 eexists. split; [vm_compute; reflexivity|]. reflexivity. Qed.

(** The sample inputs: the option wins over the existing site name, the
    rest comes from package.json and from its repository URL. *)
Lemma mkdocs_field_precedence_witness :
  heap sample_world !! 7%nat = Some sample_content ∧
  ∃ r w',
    mkdocs_transform URL_pathname_simple 7 sample_options sample_package sample_world
      = Return r w' ∧
    ∃ o, heap w' !! r = Some o ∧
         fields_follow_precedence URL_pathname_simple sample_options sample_content
           sample_package o.
Proof.
  split; [reflexivity|]. do 2 eexists. split; [vm_compute; reflexivity|].
  eapply (mkdocs_field_precedence URL_pathname_simple 7 sample_options sample_package
            sample_world).
  - reflexivity.
  - vm_compute. reflexivity.
Defined.

(** The sample package names that very repository. *)
Lemma repo_name_of_git_url_witness :
  heap sample_world !! 7%nat = Some sample_content ∧
  URL_pathname_simple "https://github.com/owner/repo.git" = Some "/owner/repo.git" ∧
  resolved_repoUrl sample_options sample_content sample_package
    = VStr "https://github.com/owner/repo.git" ∧
  repoName sample_options = None ∧
  props sample_content !! "repo_name" = None ∧
  ∃ r w' o,
    mkdocs_transform URL_pathname_simple 7 sample_options sample_package sample_world
      = Return r w' ∧
    heap w' !! r = Some o ∧
    props o !! "repo_url" = Some (VStr "https://github.com/owner/repo.git") ∧
    props o !! "repo_name" = Some (VStr "owner/repo").
Proof.
  split; [reflexivity|]. split; [reflexivity|]. split; [reflexivity|].
  split; [reflexivity|]. split; [reflexivity|].
  apply (repo_name_of_git_url URL_pathname_simple 7 sample_options sample_package
           sample_world sample_content); reflexivity.
Defined.

(** "https://github.com/owner", given as an option over empty content. *)
Lemma short_path_throws_witness :
  heap blank_content_world !! 0%nat = Some blank_content ∧
  resolved_repoUrl owner_only_options blank_content no_package
    = VStr "https://github.com/owner" ∧
  URL_pathname_simple "https://github.com/owner" = Some "/owner" ∧
  length (split "/" (slice1 "/owner")) < 2 ∧
  truthy (given_repoName owner_only_options blank_content) = false ∧
  ∃ w', mkdocs_transform URL_pathname_simple 0 owner_only_options no_package
          blank_content_world = Throw REPLACE_OF_UNDEFINED w'.
Proof.
  split; [reflexivity|]. split; [reflexivity|]. split; [reflexivity|].
  split; [simpl; lia|]. split; [reflexivity|].
  apply (short_path_throws URL_pathname_simple 0 owner_only_options no_package
           blank_content_world blank_content "https://github.com/owner" "/owner");
    [reflexivity|reflexivity|discriminate|reflexivity|simpl; lia|reflexivity].
Defined.

(** The `theme` of the sample content is among the keys that pass through. *)
Lemma mkdocs_transform_frame_witness :
  heap sample_world !! 7%nat = Some sample_content ∧
  ∃ r w',
    mkdocs_transform URL_pathname_simple 7 sample_options sample_package sample_world
      = Return r w' ∧
    ∃ o, heap w' !! r = Some o ∧
         ∀ k, k ∉ MKDOCS_KEYS → props o !! k = props sample_content !! k.
Proof.
  split; [reflexivity|]. do 2 eexists. split; [vm_compute; reflexivity|].
  eapply (mkdocs_transform_frame URL_pathname_simple 7 sample_options sample_package
            sample_world).
  - reflexivity.
  - vm_compute. reflexivity.
Defined.

Lemma list_ascii_of_append (a b : string) :
  list_ascii_of_string (a ++ b) = (list_ascii_of_string a ++ list_ascii_of_string b)%list.
Proof. induction a as [|c a IH]; simpl; [done|]. by rewrite IH. Qed.

(** A text that occurs in a message has all its characters in it. *)
Lemma includes_characters (msg text : string) (c : ascii) :
  includes msg text →
  c ∈ list_ascii_of_string text → c ∈ list_ascii_of_string msg.
Proof.
  intros (before & after & ->) Hc.
  rewrite !list_ascii_of_append, !elem_of_app. right. by left.
Qed.

(** A `pip` that exits with code 1 after printing one line: the message
    names the command and the code, and the line is not in it. *)
Lemma nonzero_exit_reports_command_only_witness :
  default false (dryRun (python_task no_python_options)) = false ∧
  pip_exits_with_1 (default NAME_PYTHON (pythonPath no_python_options))
    (pip_install_args "/pkg/requirements.txt") (files empty_world)
    = Exited 1 "ERROR: No matching distribution found" "" ∧
  (1 ≠ 0)%Z ∧
  (∃ w',
     initPython "/pkg/requirements.txt" (teen_process_exec (join " ") pip_exits_with_1)
       no_python_options empty_world
     = Throw (DocutilsError
                (INSTALL_FAILED
                   ++ exit_message (join " ")
                        (default NAME_PYTHON (pythonPath no_python_options))
                        (pip_install_args "/pkg/requirements.txt") 1))
         w' ∧
     spawned w' = (spawned empty_world
                     ++ [(default NAME_PYTHON (pythonPath no_python_options),
                          pip_install_args "/pkg/requirements.txt")])%list) ∧
  INSTALL_FAILED
    ++ exit_message (join " ") (default NAME_PYTHON (pythonPath no_python_options))
         (pip_install_args "/pkg/requirements.txt") 1
  = "Could not install Python dependencies. Reason: Command 'python -m pip install -r /pkg/requirements.txt' exited with code 1" ∧
  ¬ includes
      (INSTALL_FAILED
         ++ exit_message (join " ") (default NAME_PYTHON (pythonPath no_python_options))
              (pip_install_args "/pkg/requirements.txt") 1)
      "ERROR: No matching distribution found".
Proof.
  split; [reflexivity|]. split; [reflexivity|]. split; [lia|].
  split.
  { apply (nonzero_exit_reports_command_only "/pkg/requirements.txt" (join " ")
             pip_exits_with_1 no_python_options empty_world 1
             "ERROR: No matching distribution found" "");
      [reflexivity|reflexivity|lia]. }
  split; [vm_compute; reflexivity|].
  intros Hin.
  apply (includes_characters _ _ "E"%char) in Hin; [|by left].
  refine (bool_decide_eq_false_1 _ _ Hin). vm_compute. reflexivity.
Defined.

(** The dry run of the property, with a requirements file at a fixed path. *)
Lemma dry_run_logs_command_witness :
  dryRun (python_task dry_run_options) = Some true ∧
  pythonPath dry_run_options = Some "python3" ∧
  ∃ w' entry done,
    initPython "/pkg/requirements.txt" failing_exec dry_run_options empty_world
      = Return tt w' ∧
    logs w' = (logs empty_world ++ [entry; done])%list ∧
    tag entry = "dry-run" ∧ level entry = Info ∧
    rendered entry
      = "Would execute command: python3 -m pip install -r " ++ "/pkg/requirements.txt" ∧
    level done = Success ∧
    spawned w' = spawned empty_world ∧ files w' = files empty_world ∧
    heap w' = heap empty_world.
Proof.
  split; [reflexivity|]. split; [reflexivity|].
  apply (dry_run_logs_command "/pkg/requirements.txt" failing_exec dry_run_options
           empty_world); reflexivity.
Defined.

(** TypeDoc without TypeScript, and a Python install that fails: the
    warning and the typedoc scaffold are in the log, the mkdocs scaffold
    never ran. *)
Lemma init_sequential_first_failure_aborts_witness :
  ∃ e w2,
    enabled_steps typedoc_python_mkdocs
      = ([ScaffoldTypeDoc (typedoc_step_options typedoc_python_mkdocs)]
           ++ InstallPython (python_step_options typedoc_python_mkdocs)
           :: [ScaffoldMkDocs (mkdocs_step_options typedoc_python_mkdocs)])%list ∧
    init "/pkg/requirements.txt" failing_exec
      (logging_task "tsconfig") (logging_task "typedoc") (logging_task "mkdocs")
      typedoc_python_mkdocs empty_world = Throw e w2 ∧
    fmt <$> logs w2
      = [TSCONFIG_WARNING; "typedoc"; "Executing command: %s %s";
         "Installing Python dependencies..."].
Proof.
  do 2 eexists. split; [reflexivity|].
  destruct (init_sequential_first_failure_aborts "/pkg/requirements.txt" failing_exec
              (logging_task "tsconfig") (logging_task "typedoc") (logging_task "mkdocs")
              typedoc_python_mkdocs empty_world) as (_ & _ & Habort & _).
  split.
  - eapply (Habort [ScaffoldTypeDoc (typedoc_step_options typedoc_python_mkdocs)]
              (InstallPython (python_step_options typedoc_python_mkdocs))
              [ScaffoldMkDocs (mkdocs_step_options typedoc_python_mkdocs)]).
    + reflexivity.
    + vm_compute. reflexivity.
    + vm_compute. reflexivity.
  - reflexivity.
Defined.

Lemma sample_libraries_preserve_heap :
  libraries_preserve_heap parse_nothing stringify_nothing parse_nothing stringify_nothing.
Proof.
  unfold libraries_preserve_heap, parse_nothing, stringify_nothing.
  split_and!; intros; first [apply preserves_new_object | apply preserves_ret].
Defined.

(** Loading the module gives the heap [module_heap] and the three
    template locations. *)
Example module_loaded :
  load_module empty_world
  = Return (BASE_MKDOCS_YML, BASE_TYPEDOC_JSON, BASE_TSCONFIG_JSON) module_world.
Proof. vm_compute. reflexivity. Qed.

Lemma ends_in_world_after {A} (m : M A) (w : world) :
  m w ≠ Stuck → ends_in m w (world_after m w).
Proof.
  unfold ends_in, world_after. destruct (m w) as [a w'|e w'|]; intros H.
  - left. by exists a.
  - right. by exists e.
  - done.
Qed.

Lemma sample_runs :
  rtc (scaffold_run join_with_slash "/project" no_metadata no_fault
         parse_nothing stringify_nothing parse_nothing stringify_nothing
         URL_pathname_simple) module_world after_both_runs.
Proof.
  eapply rtc_l; [|eapply rtc_once].
  - apply (run_tsconfig _ _ _ _ _ _ _ _ _ (mkTsConfigOptions no_task_options None)).
    apply (ends_in_world_after sample_tsconfig_run module_world).
    intros H. vm_compute in H. discriminate H.
  - apply (run_mkdocs _ _ _ _ _ _ _ _ _ no_mkdocs_options).
    apply (ends_in_world_after sample_mkdocs_run after_tsconfig_run).
    intros H. vm_compute in H. discriminate H.
Qed.

Example sample_runs_written :
  files after_both_runs
  = <["/project/mkdocs.yml" := ""]> (<["/project/tsconfig.json" := ""]> ∅).
Proof. vm_compute. reflexivity. Qed.

(** After both runs the templates are what the module made them. *)
Lemma base_templates_never_mutated_witness :
  libraries_preserve_heap parse_nothing stringify_nothing parse_nothing stringify_nothing ∧
  templates_intact module_world ∧
  rtc (scaffold_run join_with_slash "/project" no_metadata no_fault
         parse_nothing stringify_nothing parse_nothing stringify_nothing
         URL_pathname_simple) module_world after_both_runs ∧
  templates_intact after_both_runs ∧ heap_preserved module_world after_both_runs.
Proof.
  split; [apply sample_libraries_preserve_heap|].
  split; [by intros l o|].
  split; [apply sample_runs|].
  apply (base_templates_never_mutated join_with_slash "/project" no_metadata no_fault
           parse_nothing stringify_nothing parse_nothing stringify_nothing
           URL_pathname_simple module_world after_both_runs).
  - apply sample_libraries_preserve_heap.
  - by intros l o.
  - apply sample_runs.
Defined.

(** * Further properties *)

(** ** The transform as one expression *)

Lemma append_not_empty (a b : string) (c : ascii) :
  String.eqb (a ++ String c b) "" = false.
Proof. destruct a; reflexivity. Qed.

Lemma append_sep_not_empty (a b : string) (c : ascii) (d : string) :
  String.eqb (a ++ String c b ++ d) "" = false.
Proof. destruct a; reflexivity. Qed.

(** A derived name holds the separator, so it is never empty. *)
Lemma derived_name_not_empty (pathname derived : string) :
  repoName_of_pathname pathname = Some derived → truthy (VStr derived) = true.
Proof.
  unfold repoName_of_pathname.
  destruct (split "/" (slice1 pathname) !! 1%nat) as [repo|]; [|done].
  intros [= <-]. cbn [truthy join]. by rewrite append_sep_not_empty.
Qed.

Lemma coalesce_twice (explicit : option string) (v : value) :
  of_opt explicit ?? (of_opt explicit ?? v) = of_opt explicit ?? v.
Proof. by destruct explicit. Qed.

(** Resolving a field a second time, from the value resolved the first
    time, changes nothing. *)
Lemma or_else_twice (explicit : option string) (existing fallback : value) :
  or_else (of_opt explicit ?? or_else (of_opt explicit ?? existing) fallback) fallback
  = or_else (of_opt explicit ?? existing) fallback.
Proof.
  destruct explicit as [s|]; unfold or_else, coalesce; simpl.
  - by destruct (negb (s =? "")).
  - destruct (truthy existing) eqn:Hex; [by rewrite Hex|].
    destruct (truthy fallback) eqn:Hfb; by rewrite ?Hfb.
Qed.

Lemma truthy_of_opt (o : option string) :
  truthy (of_opt o) = true ↔ ∃ s, o = Some s ∧ s ≠ "".
Proof.
  destruct o as [s|]; simpl.
  - rewrite negb_true_iff, String.eqb_neq. split.
    + intros Hs. by exists s.
    + by intros (s' & [= ->] & Hs).
  - split; [done|]. by intros (s & ? & _).
Qed.

(** Membership in a log that holds at most one line. *)
Lemma elem_of_optional_line (cond : bool) (e line : log_entry) :
  e ∈ (if cond then [line] else []) ↔ cond = true ∧ e = line.
Proof.
  destruct cond.
  - rewrite list_elem_of_singleton. tauto.
  - rewrite elem_of_nil. split; [done|]. by intros [? _].
Qed.

Lemma prop_transformed opts c pkg rn :
  prop (transformed opts c pkg rn) "site_name" = resolved_siteName opts c pkg ∧
  prop (transformed opts c pkg rn) "repo_url" = resolved_repoUrl opts c pkg ∧
  prop (transformed opts c pkg rn) "repo_name" = rn ∧
  prop (transformed opts c pkg rn) "site_description" = resolved_siteDescription opts c pkg.
Proof. unfold prop, transformed. simpl. by simplify_map_eq. Qed.

Lemma returned_object opts c pkg rn w r w' :
  returned opts c pkg rn w = Return r w' →
  r = length (heap w) ∧ heap w' = (heap w ++ [transformed opts c pkg rn])%list ∧
  heap w' !! r = Some (transformed opts c pkg rn) ∧
  logs w' = (logs w ++ transform_log opts c pkg rn)%list ∧
  spawned w' = spawned w ∧ files w' = files w.
Proof.
  unfold returned. intros [= <- <-]. simpl. split_and!; try done.
  by apply list_lookup_middle.
Qed.

Section TransformOutcome.

Context (URL_pathname : string → option string).
Abbreviation transform := (mkdocs_transform URL_pathname).

(** A derivation that returns has logged the derived name, and only that. *)
Lemma derive_repoName_logs (u v : value) (w w' : world) :
  derive_repoName URL_pathname u w = Return v w' →
  ∃ s pathname derived,
    u = VStr s ∧ URL_pathname s = Some pathname ∧
    repoName_of_pathname pathname = Some derived ∧
    v = VStr derived ∧ w' = with_logs w [repo_name_entry derived].
Proof.
  intros H. pose proof H as H0.
  apply derive_repoName_Return in H0
    as (s & pathname & derived & extra & -> & Hp & Hd & -> & _).
  exists s, pathname, derived. split_and!; try done.
  unfold derive_repoName in H. rewrite Hp in H. cbv zeta in H.
  unfold repoName_of_pathname in Hd.
  destruct (split "/" (slice1 pathname) !! 1%nat) as [repo|]; [|done].
  injection Hd as <-. revert H.
  change (join "/" [default "" (split "/" (slice1 pathname) !! 0%nat); replace_dot_git repo])
    with (default "" (split "/" (slice1 pathname) !! 0%nat) ++ String "/" (replace_dot_git repo)).
  unfold_monad. simpl. rewrite append_not_empty. simpl. by intros [= <-].
Qed.

Ltac step_exact H Hc :=
  first
    [ match goal with
      | Hd : derive_repoName _ _ _ = Return _ _ |- _ =>
          apply derive_repoName_logs in Hd as (? & ? & ? & ? & ? & ? & ? & ?);
          subst
      | Hd : derive_repoName _ _ _ = Throw _ _ |- _ =>
          apply derive_repoName_Throw in Hd as (? & ? & ? & ?);
          subst
      end
    | case_inner H ];
  simpl in H; rewrite ?Hc in H; try done.

Ltac use_all_conditions :=
  repeat match goal with
    | Hx : _ && _ = true |- _ => apply andb_true_iff in Hx as [? ?]
    | Hx : _ && _ = false |- _ => apply andb_false_iff in Hx as [?|?]
    | Hx : negb _ = true |- _ => apply negb_true_iff in Hx
    | Hx : negb _ = false |- _ => apply negb_false_iff in Hx
    end;
  unfold transform_log, site_name_log, repo_url_log, repo_name_log, site_description_log,
    resolved_siteName, resolved_repoUrl, resolved_siteDescription,
    given_repoName, or_else in *;
  simpl;
  repeat match goal with
    | Hx : truthy _ = _ |- _ => rewrite Hx
    | Hx : String.eqb _ _ = _ |- _ => rewrite Hx
    end;
  simpl.

Lemma transform_returns_exactly content opts pkg w r w' :
  transform content opts pkg w = Return r w' →
  ∃ c repoName,
    heap w !! content = Some c ∧
    repoName_outcome URL_pathname opts c pkg repoName ∧
    Return r w' = returned opts c pkg repoName w.
Proof.
  unfold mkdocs_transform, returned, transformed. unfold_monad. intros H.
  destruct (heap w !! content) as [c|] eqn:Hc; [|done].
  exists c. destruct w as [h l sp f]. simpl in *.
  repeat step_exact H Hc.
  all: injection H as <- <-.
  all: unfold repoName_outcome; use_all_conditions; try congruence.
  all: eexists; split_and!; [done| |]; [|f_equal; same_world].
  all: eauto 10.
Qed.

Lemma transform_throws_exactly content opts pkg w e w' :
  transform content opts pkg w = Throw e w' →
  ∃ c u,
    heap w !! content = Some c ∧
    derives_repoName opts c pkg = true ∧
    resolved_repoUrl opts c pkg = VStr u ∧
    ((URL_pathname u = None ∧ e = INVALID_URL) ∨
     (∃ pathname, URL_pathname u = Some pathname ∧
        repoName_of_pathname pathname = None ∧ e = REPLACE_OF_UNDEFINED)) ∧
    w' = with_logs w (site_name_log opts c pkg ++ repo_url_log opts c pkg).
Proof.
  unfold mkdocs_transform. unfold_monad. intros H.
  destruct (heap w !! content) as [c|] eqn:Hc; [|done].
  exists c. destruct w as [h l sp f]. simpl in *.
  repeat step_exact H Hc.
  all: injection H as <- <-.
  all: unfold derives_repoName, with_logs; use_all_conditions; try congruence.
  all: eexists; split_and!; [done|done|done|done|]; same_world.
Qed.

Lemma transform_stuck_exactly content opts pkg w :
  transform content opts pkg w = Stuck →
  heap w !! content = None ∨
  ∃ c, heap w !! content = Some c ∧
       derives_repoName opts c pkg = true ∧
       ∀ s, resolved_repoUrl opts c pkg ≠ VStr s.
Proof.
  unfold mkdocs_transform. unfold_monad. intros H.
  destruct (heap w !! content) as [c|] eqn:Hc; [|by left].
  right. exists c. destruct w as [h l sp f]. simpl in *.
  repeat (step_exact H Hc).
  all: match goal with
       | Hd : derive_repoName _ _ _ = Stuck |- _ =>
           pose proof (derive_repoName_Stuck _ _ _ Hd)
       end.
  all: unfold derives_repoName; use_all_conditions; try congruence.
  all: split_and!; done.
Qed.

(** The transform, run on a content that is there, is [transform_outcome]:
    the value, the error, the new object and the log lines. *)
Lemma transform_runs content opts pkg w c :
  heap w !! content = Some c →
  transform content opts pkg w = transform_outcome URL_pathname opts c pkg w.
Proof.
  intros Hc. unfold transform_outcome, derives_repoName.
  destruct (transform content opts pkg w) as [r w'|e w'|] eqn:H.
  - apply transform_returns_exactly in H as (c' & rn & Hc' & Hrn & ->).
    assert (c' = c) as -> by congruence.
    unfold repoName_outcome in Hrn.
    destruct (truthy (resolved_repoUrl opts c pkg) && negb (truthy (given_repoName opts c)));
      [|by rewrite Hrn].
    destruct Hrn as (u & pathname & derived & Hu & Hp & Hd & ->).
    by rewrite Hu, Hp, Hd.
  - apply transform_throws_exactly in H as (c' & u & Hc' & Hd & Hu & Hcases & ->).
    assert (c' = c) as -> by congruence.
    unfold derives_repoName in Hd. rewrite Hd, Hu.
    destruct Hcases as [[-> ->]|(pathname & -> & -> & ->)]; done.
  - apply transform_stuck_exactly in H as [H|(c' & Hc' & Hd & Hns)]; [congruence|].
    assert (c' = c) as -> by congruence.
    unfold derives_repoName in Hd. rewrite Hd.
    destruct (resolved_repoUrl opts c pkg) eqn:Hr; try done. by destruct (Hns s).
Qed.

(** Whenever the transform returns, it returns [returned] for some name. *)
Lemma transform_runs_Return content opts pkg w c r w' :
  heap w !! content = Some c →
  transform content opts pkg w = Return r w' →
  ∃ rn, returned opts c pkg rn w = Return r w' ∧
        repoName_outcome URL_pathname opts c pkg rn.
Proof.
  intros Hc H. apply transform_returns_exactly in H as (c' & rn & Hc' & Hrn & ->).
  assert (c' = c) as -> by congruence. by exists rn.
Qed.

(** ** What the transform does and does not do *)

(** X1.  The transform reads its content and never writes to it: when it
    returns, the result is a new object at a location that is not the
    content's, the content and every other object are as before, and
    beyond that only log lines were added; when it throws, only log lines
    were added.  It spawns nothing and touches no file. *)
Theorem transform_only_allocates_and_logs content opts pkg w c :
  heap w !! content = Some c →
  allocates_and_logs_only content c w (transform content opts pkg w).
Proof.
  intros Hc. unfold allocates_and_logs_only.
  destruct (transform content opts pkg w) as [r w'|e w'|] eqn:H; [| |done].
  - apply (transform_runs_Return _ _ _ _ c) in H as (rn & H & _); [|done].
    apply returned_object in H as (-> & Hheap & _ & Hlogs & Hsp & Hf).
    split_and!; try done; eauto.
    + intros <-. apply lookup_lt_Some in Hc. lia.
    + rewrite Hheap. by apply lookup_app_l_Some.
  - apply transform_throws_exactly in H as (c' & u & _ & _ & _ & _ & ->).
    unfold with_logs. simpl. split_and!; eauto.
Qed.

(** X2.  The keys of the returned object are the keys of the content and
    the four keys `site_name`, `repo_url`, `repo_name` and
    `site_description`, which are there even when their value is
    `undefined`. *)
Theorem transform_result_keys content opts pkg w c r w' :
  heap w !! content = Some c →
  transform content opts pkg w = Return r w' →
  ∃ o, heap w' !! r = Some o ∧
       dom (props o) = dom (props c) ∪ list_to_set MKDOCS_KEYS.
Proof.
  intros Hc H. apply (transform_runs_Return _ _ _ _ c) in H as (rn & H & _); [|done].
  apply returned_object in H as (_ & _ & Ho & _).
  eexists. split; [done|]. unfold transformed, MKDOCS_KEYS. simpl.
  rewrite !dom_insert_L. apply set_eq. intros k.
  rewrite !elem_of_union, !elem_of_singleton, elem_of_empty. tauto.
Qed.

(** X4.  When a repository name has to be derived and `new URL` rejects
    the resolved URL, the transform throws the TypeError of the
    constructor, after the log lines of the site name and of the
    repository URL and before anything else. *)
Theorem unparsable_url_throws content opts pkg w c u :
  heap w !! content = Some c →
  derives_repoName opts c pkg = true →
  resolved_repoUrl opts c pkg = VStr u →
  URL_pathname u = None →
  transform content opts pkg w
  = Throw INVALID_URL (with_logs w (site_name_log opts c pkg ++ repo_url_log opts c pkg)).
Proof.
  intros Hc Hd Hu Hp. rewrite (transform_runs _ _ _ _ c) by done.
  unfold transform_outcome. by rewrite Hd, Hu, Hp.
Qed.

(** X5.  From a pathname `/owner/repo`, with or without further segments
    after it, the derived name is `owner/` followed by `repo` without its
    trailing `.git`: whatever follows the second segment is ignored. *)
Theorem repo_name_of_path_segments content opts pkg w c u owner repo rest :
  heap w !! content = Some c →
  derives_repoName opts c pkg = true →
  resolved_repoUrl opts c pkg = VStr u →
  URL_pathname u = Some ("/" ++ owner ++ "/" ++ repo ++ rest) →
  (∀ x, x ∈ list_ascii_of_string owner → x ≠ "/"%char) →
  (∀ x, x ∈ list_ascii_of_string repo → x ≠ "/"%char) →
  rest = "" ∨ (∃ more, rest = String "/" more) →
  ∃ r w' o,
    transform content opts pkg w = Return r w' ∧
    heap w' !! r = Some o ∧
    prop o "repo_name" = VStr (owner ++ "/" ++ replace_dot_git repo).
Proof.
  intros Hc Hd Hu Hp Howner Hrepo Hrest.
  assert (repoName_of_pathname ("/" ++ owner ++ "/" ++ repo ++ rest)
          = Some (owner ++ "/" ++ replace_dot_git repo)) as Hname.
  { unfold repoName_of_pathname.
    change (slice1 ("/" ++ owner ++ "/" ++ repo ++ rest))
      with (owner ++ String "/" (repo ++ rest)).
    rewrite split_segment by done.
    destruct Hrest as [->|[more ->]].
    - rewrite append_empty, split_last by done. done.
    - rewrite split_segment by done. done. }
  destruct (returned opts c pkg (VStr (owner ++ "/" ++ replace_dot_git repo)) w)
    as [r w'| |] eqn:Hret; try done.
  exists r, w'. eexists. split; [|split].
  - rewrite (transform_runs _ _ _ _ c) by done.
    unfold transform_outcome. by rewrite Hd, Hu, Hp, Hname.
  - by apply returned_object in Hret as (_ & _ & ? & _).
  - apply prop_transformed.
Qed.

(** X7.  Unless package.json gives the empty string as its name, the
    returned `site_name` is truthy: the field is always filled. *)
Theorem site_name_always_set content opts pkg w c r w' :
  heap w !! content = Some c →
  name pkg ≠ Some "" →
  transform content opts pkg w = Return r w' →
  ∃ o, heap w' !! r = Some o ∧ truthy (prop o "site_name") = true.
Proof.
  intros Hc Hname H.
  apply (transform_runs_Return _ _ _ _ c) in H as (rn & H & _); [|done].
  apply returned_object in H as (_ & _ & Ho & _).
  eexists. split; [done|].
  destruct (prop_transformed opts c pkg rn) as (-> & _).
  unfold resolved_siteName, or_else.
  destruct (truthy (of_opt (siteName opts) ?? prop c "site_name")) eqn:Hv; [done|].
  destruct (name pkg) as [n|]; [|done]. simpl.
  destruct (String.eqb_spec n ""); [congruence|done].
Qed.

(** X8.  An option given as the empty string hides the existing value of
    its field without replacing it: the field is then what package.json
    gives, whatever the content held. *)
Theorem empty_option_discards_existing_value content opts pkg w c r w' :
  heap w !! content = Some c →
  transform content opts pkg w = Return r w' →
  ∃ o, heap w' !! r = Some o ∧
    (siteName opts = Some "" →
     prop o "site_name" = VStr (default "(no name)" (name pkg))) ∧
    (repoUrl opts = Some "" → prop o "repo_url" = of_opt (repository_url pkg)) ∧
    (siteDescription opts = Some "" →
     prop o "site_description" = of_opt (description pkg)).
Proof.
  intros Hc H.
  apply (transform_runs_Return _ _ _ _ c) in H as (rn & H & _); [|done].
  apply returned_object in H as (_ & _ & Ho & _).
  eexists. split; [done|].
  destruct (prop_transformed opts c pkg rn) as (-> & -> & _ & ->).
  unfold resolved_siteName, resolved_repoUrl, resolved_siteDescription.
  split_and!; by intros ->.
Qed.

(** X9.  The transform is idempotent on the content: run again, with the
    same options and package.json, on the object it returned, it returns
    an object with the same properties. *)
Theorem transform_idempotent content opts pkg w r w' :
  mkdocs_transform URL_pathname content opts pkg w = Return r w' →
  ∃ r2 w2 o o2,
    mkdocs_transform URL_pathname r opts pkg w' = Return r2 w2 ∧
    heap w' !! r = Some o ∧ heap w2 !! r2 = Some o2 ∧
    props o2 = props o.
Proof.
  intros H. pose proof H as H0.
  apply transform_returns_exactly in H0 as (c & rn & Hc & Hrn & Hret).
  symmetry in Hret. apply returned_object in Hret as (_ & _ & Ho & _).
  set (o := transformed opts c pkg rn) in *.
  destruct (prop_transformed opts c pkg rn) as (Hsn & Hru & Hrname & Hsd).
  fold o in Hsn, Hru, Hrname, Hsd.
  assert (resolved_siteName opts o pkg = resolved_siteName opts c pkg) as Esn.
  { unfold resolved_siteName. rewrite Hsn. apply or_else_twice. }
  assert (resolved_repoUrl opts o pkg = resolved_repoUrl opts c pkg) as Eru.
  { unfold resolved_repoUrl. rewrite Hru. apply or_else_twice. }
  assert (resolved_siteDescription opts o pkg = resolved_siteDescription opts c pkg) as Esd.
  { unfold resolved_siteDescription. rewrite Hsd. apply or_else_twice. }
  assert (transform_outcome URL_pathname opts o pkg w'
          = returned opts o pkg rn w') as Hsecond.
  { unfold transform_outcome, derives_repoName, given_repoName. rewrite Eru, Hrname.
    unfold repoName_outcome in Hrn.
    destruct (truthy (resolved_repoUrl opts c pkg) && negb (truthy (given_repoName opts c)))
      eqn:Hd.
    - destruct Hrn as (u & pathname & derived & Hu & Hp & Hder & ->).
      rewrite Hu in *. simpl in Hd.
      apply andb_true_iff in Hd as [Hut Hg]. apply negb_true_iff in Hg.
      pose proof (derived_name_not_empty _ _ Hder) as Hdt.
      unfold given_repoName in Hg.
      destruct (repoName opts) as [s|]; unfold coalesce in *; simpl in *.
      + rewrite Hut, Hg. simpl. by rewrite Hp, Hder.
      + rewrite Hdt, andb_false_r. done.
    - subst rn. unfold given_repoName in *. rewrite coalesce_twice, Hd. done. }
  destruct (returned opts o pkg rn w') as [r2 w2| |] eqn:Hret2; try done.
  exists r2, w2, o, (transformed opts o pkg rn).
  split; [by rewrite (transform_runs _ _ _ _ o)|].
  split; [done|].
  split; [by apply returned_object in Hret2 as (_ & _ & ? & _)|].
  unfold transformed at 1. simpl. rewrite Esn, Eru, Esd.
  subst o. unfold transformed. simpl.
  apply map_eq. intros k. rewrite !lookup_insert. by repeat case_decide.
Qed.

(** X10.  The line about the repository URL is logged exactly when neither
    the option nor the content gave a truthy URL and package.json has a
    non-empty one, which the line cites; and likewise the line about the
    site description. *)
Theorem metadata_lines_logged_exactly content opts pkg w c r w' :
  heap w !! content = Some c →
  transform content opts pkg w = Return r w' →
  ∃ extra,
    logs w' = (logs w ++ extra)%list ∧
    (∀ u, repo_url_entry u ∈ extra ↔
          truthy (of_opt (repoUrl opts) ?? prop c "repo_url") = false ∧
          repository_url pkg = Some u ∧ u ≠ "") ∧
    (∀ d, site_description_entry d ∈ extra ↔
          truthy (of_opt (siteDescription opts) ?? prop c "site_description") = false ∧
          description pkg = Some d ∧ d ≠ "").
Proof.
  intros Hc H.
  apply (transform_runs_Return _ _ _ _ c) in H as (rn & H & _); [|done].
  apply returned_object in H as (_ & _ & _ & Hlogs & _).
  eexists. split; [done|].
  unfold transform_log, site_name_log, repo_url_log, repo_name_log, site_description_log.
  split; intros x; rewrite !elem_of_app, !elem_of_optional_line.
  - split.
    + intros [[_ [=]]|[[Hcond [= ->]]|[Hrn|[_ [=]]]]].
      * apply andb_true_iff in Hcond as [Hv Hu]. apply negb_true_iff in Hv.
        apply truthy_of_opt in Hu as (s & Hs & Hne). rewrite Hs. by simpl.
      * exfalso. destruct (_ && _); [|by apply elem_of_nil in Hrn].
        destruct rn; try (by apply elem_of_nil in Hrn).
        by apply list_elem_of_singleton in Hrn.
    + intros (Hv & Hu & Hne). right. left. rewrite Hv, Hu. simpl. split; [|done].
      by apply String.eqb_neq in Hne as ->.
  - split.
    + intros [[_ [=]]|[[_ [=]]|[Hrn|[Hcond [= ->]]]]].
      * exfalso. destruct (_ && _); [|by apply elem_of_nil in Hrn].
        destruct rn; try (by apply elem_of_nil in Hrn).
        by apply list_elem_of_singleton in Hrn.
      * apply andb_true_iff in Hcond as [Hv Hu]. apply negb_true_iff in Hv.
        apply truthy_of_opt in Hu as (s & Hs & Hne). rewrite Hs. by simpl.
    + intros (Hv & Hu & Hne). right. right. right. rewrite Hv, Hu. simpl. split; [|done].
      by apply String.eqb_neq in Hne as ->.
Qed.

(** X11.  The line about the repository name is logged exactly when the
    name was derived, and cites the derived name: the guard of line 109
    never holds a derived name back. *)
Theorem derived_name_always_logged content opts pkg w c r w' :
  heap w !! content = Some c →
  transform content opts pkg w = Return r w' →
  ∃ o extra,
    heap w' !! r = Some o ∧ logs w' = (logs w ++ extra)%list ∧
    (∀ n, repo_name_entry n ∈ extra ↔
          derives_repoName opts c pkg = true ∧ prop o "repo_name" = VStr n).
Proof.
  intros Hc H.
  apply (transform_runs_Return _ _ _ _ c) in H as (rn & H & Hrn); [|done].
  apply returned_object in H as (_ & _ & Ho & Hlogs & _).
  eexists _, _. split; [done|]. split; [done|].
  destruct (prop_transformed opts c pkg rn) as (_ & _ & -> & _).
  intros n.
  unfold transform_log, site_name_log, repo_url_log, repo_name_log, site_description_log.
  rewrite !elem_of_app, !elem_of_optional_line.
  unfold repoName_outcome in Hrn. fold (derives_repoName opts c pkg) in Hrn |- *.
  split.
  - intros [[_ [=]]|[[_ [=]]|[Hin|[_ [=]]]]].
    destruct (derives_repoName opts c pkg); [|by apply elem_of_nil in Hin].
    destruct Hrn as (u & pathname & derived & _ & _ & _ & ->).
    apply list_elem_of_singleton in Hin as [= ->]. done.
  - intros [Hd ->]. right. right. left. rewrite Hd. by apply list_elem_of_singleton.
Qed.

End TransformOutcome.

(** X3.  With a repository name given, or with no repository URL at all,
    nothing is derived: the transform returns, the same for every URL
    parser, and the name is the one given.  An unparsable URL is then of
    no consequence. *)
Theorem transform_without_derivation content opts pkg w c :
  heap w !! content = Some c →
  derives_repoName opts c pkg = false →
  ∃ r w' o,
    (∀ parser, mkdocs_transform parser content opts pkg w = Return r w') ∧
    heap w' !! r = Some o ∧
    prop o "repo_name" = given_repoName opts c.
Proof.
  intros Hc Hd.
  destruct (returned opts c pkg (given_repoName opts c) w) as [r w'| |] eqn:Hret; try done.
  exists r, w', (transformed opts c pkg (given_repoName opts c)).
  split; [|split].
  - intros parser. rewrite (transform_runs parser _ _ _ _ c) by done.
    unfold transform_outcome. by rewrite Hd.
  - by apply returned_object in Hret as (_ & _ & ? & _).
  - apply prop_transformed.
Qed.

(** X6.  `repo.replace(/\.git$/, ...)` removes one trailing ".git" and
    nothing else: a name that ends with it loses it once, any other name
    is left as it is. *)
Theorem replace_dot_git_strips_one_suffix (s : string) :
  (∀ x, s = x ++ ".git" → replace_dot_git s = x) ∧
  ((∀ x, s ≠ x ++ ".git") → replace_dot_git s = s).
Proof.
  split.
  - intros x ->. apply replace_dot_git_suffix.
  - induction s as [|a s IH]; intros Hno; [done|].
    rewrite replace_dot_git_unfold.
    destruct (String.eqb_spec (String a s) ".git") as [Heq|_].
    + by destruct (Hno "").
    + f_equal. apply IH. intros x ->. by apply (Hno (String a x)).
Qed.

(** ** The installer, however it ends *)

Section InstallerBehaviour.

Context (REQUIREMENTS_TXT_PATH : string).
Context (exec : string → list string → gmap string string → exec_result).
Abbreviation install := (initPython REQUIREMENTS_TXT_PATH exec).
Abbreviation pip_args := (pip_install_args REQUIREMENTS_TXT_PATH).
Abbreviation interpreter opts := (default NAME_PYTHON (pythonPath opts)).
Abbreviation dry opts := (default false (dryRun (python_task opts))).

(** X12.  Outside a dry run, when `exec` resolves with exit code 0 the
    installer returns, having spawned the one command and logged, in this
    order, the command, the start and the success. *)
Theorem install_succeeds_on_exit_zero opts w stdout :
  dry opts = false →
  exec (interpreter opts) pip_args (files w) = Resolved 0 stdout →
  ∃ w',
    install opts w = Return tt w' ∧
    logs w' = (logs w ++ [executing_entry (interpreter opts) pip_args;
                          installing_entry; installed_entry])%list ∧
    spawned w' = (spawned w ++ [(interpreter opts, pip_args)])%list.
Proof.
  intros Hdry Hexec. unfold initPython. rewrite Hdry.
  unfold_monad. unfold await_exec. simpl. rewrite Hexec. simpl.
  eexists. split; [reflexivity|]. simpl. split; [|done].
  by rewrite <- !app_assoc.
Qed.

(** X13.  Every error of the installer is a DocutilsError that starts with
    "Could not install Python dependencies. Reason: ", followed by that
    same text and the stdout when `exec` resolved with a non-zero code, and
    by the message of its error when `exec` rejected.  It is never thrown
    in a dry run, and the success line is not logged. *)
Theorem install_failures_are_wrapped opts w e w' :
  install opts w = Throw e w' →
  dry opts = false ∧
  ((∃ code stdout,
      exec (interpreter opts) pip_args (files w) = Resolved code stdout ∧
      code ≠ 0%Z ∧
      e = DocutilsError (INSTALL_FAILED ++ INSTALL_FAILED ++ stdout)) ∨
   (∃ err,
      exec (interpreter opts) pip_args (files w) = Rejected err ∧
      e = DocutilsError (INSTALL_FAILED ++ message err))) ∧
  logs w' = (logs w ++ [executing_entry (interpreter opts) pip_args; installing_entry])%list.
Proof.
  unfold initPython. destruct (dry opts) eqn:Hdry.
  - unfold_monad. simpl. done.
  - unfold_monad. unfold await_exec. simpl.
    destruct (exec (interpreter opts) pip_args (files w)) as [code stdout|err] eqn:Hexec;
      simpl.
    + destruct (Z.eqb_spec code 0) as [->|Hcode]; simpl; [done|].
      intros [= <- <-]. simpl. split; [done|]. split; [|by rewrite <- app_assoc].
      left. by exists code, stdout.
    + intros [= <- <-]. simpl. split; [done|]. split; [|by rewrite <- app_assoc].
      right. by exists err.
Qed.

(** X14.  Whether the installer returns or throws, it has spawned no
    command in a dry run and exactly one otherwise, the interpreter with
    the `pip install` arguments, and it has left the heap alone. *)
Theorem install_spawns_once_unless_dry opts w :
  spawns_once_unless_dry (dry opts) (interpreter opts, pip_args) w (install opts w).
Proof.
  unfold spawns_once_unless_dry, initPython. destruct (dry opts) eqn:Hdry.
  - unfold_monad. simpl. by rewrite app_nil_r.
  - unfold_monad. unfold await_exec. simpl.
    destruct (exec (interpreter opts) pip_args (files w)) as [code stdout|err]; simpl.
    + by destruct (Z.eqb_spec code 0).
    + done.
Qed.

End InstallerBehaviour.

(** ** The orchestrator and its options *)

Section OrchestratorBehaviour.

Context (REQUIREMENTS_TXT_PATH : string).
Context (exec : string → list string → gmap string string → exec_result).
Context (initTsConfigJson : InitTsConfigOptions → M unit).
Context (initTypeDocJson : InitTypeDocOptions → M unit).
Context (initMkDocs : InitMkDocsOptions → M unit).

Abbreviation run_init :=
  (init REQUIREMENTS_TXT_PATH exec initTsConfigJson initTypeDocJson initMkDocs).

(** X15.  With none of the four flags set, as in a call without
    arguments, `init` returns at once: no task runs, nothing is logged,
    not even the warning. *)
Theorem init_with_nothing_enabled o w :
  enabled (InitOptions.typescript o) = false →
  enabled (InitOptions.typedoc o) = false →
  enabled (InitOptions.python o) = false →
  enabled (InitOptions.mkdocs o) = false →
  run_init o w = Return tt w.
Proof.
  intros Hts Htd Hpy Hmk. unfold init. rewrite Hts, Htd, Hpy, Hmk. reflexivity.
Qed.

(** X16.  A step whose flag is not set does not run: `init` ends in the
    same way whatever task stands in its place, and with `python` not set
    whatever the subprocess facility and the requirements path are. *)
Theorem disabled_steps_never_run o w :
  (enabled (InitOptions.typescript o) = false →
   ∀ other, run_init o w
            = init REQUIREMENTS_TXT_PATH exec other initTypeDocJson initMkDocs o w) ∧
  (enabled (InitOptions.typedoc o) = false →
   ∀ other, run_init o w
            = init REQUIREMENTS_TXT_PATH exec initTsConfigJson other initMkDocs o w) ∧
  (enabled (InitOptions.python o) = false →
   ∀ path other, run_init o w
                 = init path other initTsConfigJson initTypeDocJson initMkDocs o w) ∧
  (enabled (InitOptions.mkdocs o) = false →
   ∀ other, run_init o w
            = init REQUIREMENTS_TXT_PATH exec initTsConfigJson initTypeDocJson other o w).
Proof.
  unfold init. split_and!; intros Hoff; intros; rewrite Hoff; reflexivity.
Qed.

(** X17.  `init` does not pass `siteDescription` on: whatever its value,
    `init` ends in the same way, the mkdocs task being handed none. *)
Theorem init_drops_siteDescription o (d1 d2 : option string) w :
  run_init (with_siteDescription d1 o) w = run_init (with_siteDescription d2 o) w.
Proof. reflexivity. Qed.

Lemma dry_install_preserves_spawned (opts : InitPythonOptions) :
  dryRun (python_task opts) = Some true →
  preserves_spawned (initPython REQUIREMENTS_TXT_PATH exec opts).
Proof. intros Hdry w. unfold initPython. rewrite Hdry. by unfold_monad. Qed.

Lemma run_in_order_preserves_spawned (steps : list step) :
  (∀ s, s ∈ steps →
        preserves_spawned (run_step REQUIREMENTS_TXT_PATH exec initTsConfigJson
                             initTypeDocJson initMkDocs s)) →
  preserves_spawned (run_in_order REQUIREMENTS_TXT_PATH exec initTsConfigJson
                       initTypeDocJson initMkDocs steps).
Proof.
  induction steps as [|s steps IH]; intros Hall w; simpl; [done|].
  assert (s ∈ s :: steps) as Hin by (apply elem_of_cons; by left).
  pose proof (Hall s Hin w) as Hs.
  destruct (run_step _ _ _ _ _ s w) as [[] w1|e w1|]; [|done..].
  assert (∀ s', s' ∈ steps →
            preserves_spawned (run_step REQUIREMENTS_TXT_PATH exec initTsConfigJson
                                 initTypeDocJson initMkDocs s')) as Hrest.
  { intros s' Hs'. apply Hall. apply elem_of_cons. by right. }
  specialize (IH Hrest w1).
  destruct (run_in_order _ _ _ _ _ steps w1); by rewrite ?IH, ?Hs.
Qed.

(** X18.  `init` hands `dryRun` to the installer: in a dry run, if the
    scaffold tasks spawn nothing, `init` spawns nothing, whichever steps
    are enabled and however it ends. *)
Theorem dry_run_init_spawns_nothing o :
  (∀ opts, preserves_spawned (initTsConfigJson opts)) →
  (∀ opts, preserves_spawned (initTypeDocJson opts)) →
  (∀ opts, preserves_spawned (initMkDocs opts)) →
  InitOptions.dryRun o = Some true →
  preserves_spawned (run_init o).
Proof.
  intros Hts Htd Hmk Hdry w. rewrite init_is_run_in_order.
  assert (spawned (after_warning o w) = spawned w) as <-.
  { unfold after_warning. by destruct (warning_due o). }
  apply run_in_order_preserves_spawned.
  intros s Hs. unfold enabled_steps in Hs.
  rewrite !elem_of_app in Hs.
  assert (s = ScaffoldTsConfig (tsconfig_step_options o) ∨
          s = ScaffoldTypeDoc (typedoc_step_options o) ∨
          s = InstallPython (python_step_options o) ∨
          s = ScaffoldMkDocs (mkdocs_step_options o)) as Hcases.
  { destruct Hs as [Hs|[Hs|[Hs|Hs]]];
      match type of Hs with _ ∈ (if ?b then _ else _) => destruct b end;
      try (by apply elem_of_nil in Hs);
      apply list_elem_of_singleton in Hs; tauto. }
  destruct Hcases as [-> | [-> | [-> | ->]]]; simpl; try done.
  by apply dry_install_preserves_spawned.
Qed.

End OrchestratorBehaviour.

(** ** The further properties on sample inputs *)

(** The sample transform returns the object after the sample content. *)
Lemma sample_transform_returns :
  sample_transform sample_world = Return 8 sample_transformed_world.
Proof. vm_compute. reflexivity. Qed.

Lemma empty_name_transform_returns :
  empty_name_transform sample_world
  = Return 8 (world_after empty_name_transform sample_world).
Proof. vm_compute. reflexivity. Qed.

(** The sample content, with the sample options and package. *)
Lemma transform_only_allocates_and_logs_witness :
  heap sample_world !! 7%nat = Some sample_content ∧
  allocates_and_logs_only 7 sample_content sample_world (sample_transform sample_world).
Proof.
  split; [reflexivity|].
  apply (transform_only_allocates_and_logs URL_pathname_simple 7 sample_options
           sample_package sample_world sample_content).
  reflexivity.
Defined.

(** The keys of the sample content are `site_name` and `theme`. *)
Lemma transform_result_keys_witness :
  heap sample_world !! 7%nat = Some sample_content ∧
  sample_transform sample_world = Return 8 sample_transformed_world ∧
  ∃ o, heap sample_transformed_world !! 8%nat = Some o ∧
       dom (props o) = dom (props sample_content) ∪ list_to_set MKDOCS_KEYS.
Proof.
  split; [reflexivity|]. split; [apply sample_transform_returns|].
  apply (transform_result_keys URL_pathname_simple 7 sample_options sample_package
           sample_world sample_content 8 sample_transformed_world).
  - reflexivity.
  - apply sample_transform_returns.
Defined.

(** A repository name given as an option, beside a URL that is none. *)
Lemma transform_without_derivation_witness :
  heap blank_content_world !! 0%nat = Some blank_content ∧
  derives_repoName named_repo_options blank_content no_package = false ∧
  ∃ r w' o,
    (∀ parser, mkdocs_transform parser 0 named_repo_options no_package
                 blank_content_world = Return r w') ∧
    heap w' !! r = Some o ∧
    prop o "repo_name" = given_repoName named_repo_options blank_content.
Proof.
  split; [reflexivity|]. split; [reflexivity|].
  apply (transform_without_derivation 0 named_repo_options no_package
           blank_content_world blank_content); reflexivity.
Defined.

(** The same URL with no name beside it. *)
Lemma unparsable_url_throws_witness :
  heap blank_content_world !! 0%nat = Some blank_content ∧
  derives_repoName unparsable_options blank_content no_package = true ∧
  resolved_repoUrl unparsable_options blank_content no_package = VStr "not a url" ∧
  URL_pathname_simple "not a url" = None ∧
  mkdocs_transform URL_pathname_simple 0 unparsable_options no_package blank_content_world
  = Throw INVALID_URL
      (with_logs blank_content_world
         (site_name_log unparsable_options blank_content no_package
            ++ repo_url_log unparsable_options blank_content no_package)).
Proof.
  split; [reflexivity|]. split; [reflexivity|]. split; [reflexivity|].
  split; [reflexivity|].
  apply (unparsable_url_throws URL_pathname_simple 0 unparsable_options no_package
           blank_content_world blank_content "not a url"); reflexivity.
Defined.

Lemma no_slash_in_owner : ∀ x, x ∈ list_ascii_of_string "owner" → x ≠ "/"%char.
Proof.
  intros x Hx. simpl in Hx.
  repeat (apply elem_of_cons in Hx as [->|Hx]; [done|]). by apply elem_of_nil in Hx.
Qed.

Lemma no_slash_in_repo : ∀ x, x ∈ list_ascii_of_string "repo" → x ≠ "/"%char.
Proof.
  intros x Hx. simpl in Hx.
  repeat (apply elem_of_cons in Hx as [->|Hx]; [done|]). by apply elem_of_nil in Hx.
Qed.

(** The URL of a page inside a repository. *)
Lemma repo_name_of_path_segments_witness :
  heap blank_content_world !! 0%nat = Some blank_content ∧
  derives_repoName tree_url_options blank_content no_package = true ∧
  resolved_repoUrl tree_url_options blank_content no_package
    = VStr "https://github.com/owner/repo/tree/main" ∧
  URL_pathname_simple "https://github.com/owner/repo/tree/main"
    = Some ("/" ++ "owner" ++ "/" ++ "repo" ++ "/tree/main") ∧
  ∃ r w' o,
    mkdocs_transform URL_pathname_simple 0 tree_url_options no_package
      blank_content_world = Return r w' ∧
    heap w' !! r = Some o ∧
    prop o "repo_name" = VStr ("owner" ++ "/" ++ replace_dot_git "repo").
Proof.
  split; [reflexivity|]. split; [reflexivity|]. split; [reflexivity|].
  split; [reflexivity|].
  apply (repo_name_of_path_segments URL_pathname_simple 0 tree_url_options no_package
           blank_content_world blank_content "https://github.com/owner/repo/tree/main"
           "owner" "repo" "/tree/main");
    [reflexivity|reflexivity|reflexivity|reflexivity
    |apply no_slash_in_owner|apply no_slash_in_repo|right; by eexists].
Defined.

Lemma repo_has_no_dot_git : ∀ x, "repo" ≠ x ++ ".git".
Proof.
  intros x Hx. pose proof (f_equal String.length Hx) as Hlen.
  rewrite length_append in Hlen. simpl in Hlen.
  destruct x as [|a x]; [discriminate Hx|]. simpl in Hlen. lia.
Qed.

(** "repo.git.git" loses one suffix, "repo" none. *)
Lemma replace_dot_git_strips_one_suffix_witness :
  "repo.git.git" = "repo.git" ++ ".git" ∧
  replace_dot_git "repo.git.git" = "repo.git" ∧
  (∀ x, "repo" ≠ x ++ ".git") ∧
  replace_dot_git "repo" = "repo".
Proof.
  split; [reflexivity|].
  split; [apply (proj1 (replace_dot_git_strips_one_suffix "repo.git.git")); reflexivity|].
  split; [apply repo_has_no_dot_git|].
  apply (proj2 (replace_dot_git_strips_one_suffix "repo")), repo_has_no_dot_git.
Defined.

(** The sample package has a name. *)
Lemma site_name_always_set_witness :
  heap sample_world !! 7%nat = Some sample_content ∧
  name sample_package ≠ Some "" ∧
  sample_transform sample_world = Return 8 sample_transformed_world ∧
  ∃ o, heap sample_transformed_world !! 8%nat = Some o ∧
       truthy (prop o "site_name") = true.
Proof.
  split; [reflexivity|]. split; [discriminate|].
  split; [apply sample_transform_returns|].
  apply (site_name_always_set URL_pathname_simple 7 sample_options sample_package
           sample_world sample_content 8 sample_transformed_world).
  - reflexivity.
  - discriminate.
  - apply sample_transform_returns.
Defined.

(** Empty options over the sample content, whose site name is "Old name". *)
Lemma empty_option_discards_existing_value_witness :
  heap sample_world !! 7%nat = Some sample_content ∧
  empty_name_transform sample_world
    = Return 8 (world_after empty_name_transform sample_world) ∧
  ∃ o, heap (world_after empty_name_transform sample_world) !! 8%nat = Some o ∧
    (siteName empty_name_options = Some "" →
     prop o "site_name" = VStr (default "(no name)" (name sample_package))) ∧
    (repoUrl empty_name_options = Some "" →
     prop o "repo_url" = of_opt (repository_url sample_package)) ∧
    (siteDescription empty_name_options = Some "" →
     prop o "site_description" = of_opt (description sample_package)).
Proof.
  split; [reflexivity|]. split; [apply empty_name_transform_returns|].
  apply (empty_option_discards_existing_value URL_pathname_simple 7 empty_name_options
           sample_package sample_world sample_content 8
           (world_after empty_name_transform sample_world)).
  - reflexivity.
  - apply empty_name_transform_returns.
Defined.

(** The sample transform, and then once more on its result. *)
Lemma transform_idempotent_witness :
  sample_transform sample_world = Return 8 sample_transformed_world ∧
  ∃ r2 w2 o o2,
    mkdocs_transform URL_pathname_simple 8 sample_options sample_package
      sample_transformed_world = Return r2 w2 ∧
    heap sample_transformed_world !! 8%nat = Some o ∧ heap w2 !! r2 = Some o2 ∧
    props o2 = props o.
Proof.
  split; [apply sample_transform_returns|].
  apply (transform_idempotent URL_pathname_simple 7 sample_options sample_package
           sample_world 8 sample_transformed_world).
  apply sample_transform_returns.
Defined.

(** The sample options give neither URL nor description, the package both. *)
Lemma metadata_lines_logged_exactly_witness :
  heap sample_world !! 7%nat = Some sample_content ∧
  sample_transform sample_world = Return 8 sample_transformed_world ∧
  ∃ extra,
    logs sample_transformed_world = (logs sample_world ++ extra)%list ∧
    (∀ u, repo_url_entry u ∈ extra ↔
          truthy (of_opt (repoUrl sample_options) ?? prop sample_content "repo_url") = false ∧
          repository_url sample_package = Some u ∧ u ≠ "") ∧
    (∀ d, site_description_entry d ∈ extra ↔
          truthy (of_opt (siteDescription sample_options)
                  ?? prop sample_content "site_description") = false ∧
          description sample_package = Some d ∧ d ≠ "").
Proof.
  split; [reflexivity|]. split; [apply sample_transform_returns|].
  apply (metadata_lines_logged_exactly URL_pathname_simple 7 sample_options sample_package
           sample_world sample_content 8 sample_transformed_world).
  - reflexivity.
  - apply sample_transform_returns.
Defined.

Lemma derived_name_always_logged_witness :
  heap sample_world !! 7%nat = Some sample_content ∧
  sample_transform sample_world = Return 8 sample_transformed_world ∧
  ∃ o extra,
    heap sample_transformed_world !! 8%nat = Some o ∧
    logs sample_transformed_world = (logs sample_world ++ extra)%list ∧
    (∀ n, repo_name_entry n ∈ extra ↔
          derives_repoName sample_options sample_content sample_package = true ∧
          prop o "repo_name" = VStr n).
Proof.
  split; [reflexivity|]. split; [apply sample_transform_returns|].
  apply (derived_name_always_logged URL_pathname_simple 7 sample_options sample_package
           sample_world sample_content 8 sample_transformed_world).
  - reflexivity.
  - apply sample_transform_returns.
Defined.

(** A `pip` that finds everything installed. *)
Lemma install_succeeds_on_exit_zero_witness :
  default false (dryRun (python_task no_python_options)) = false ∧
  succeeding_exec (default NAME_PYTHON (pythonPath no_python_options))
    (pip_install_args "/pkg/requirements.txt") (files empty_world)
    = Resolved 0 "Requirement already satisfied" ∧
  ∃ w',
    initPython "/pkg/requirements.txt" succeeding_exec no_python_options empty_world
      = Return tt w' ∧
    logs w' = (logs empty_world
                 ++ [executing_entry (default NAME_PYTHON (pythonPath no_python_options))
                       (pip_install_args "/pkg/requirements.txt");
                     installing_entry; installed_entry])%list ∧
    spawned w' = (spawned empty_world
                    ++ [(default NAME_PYTHON (pythonPath no_python_options),
                         pip_install_args "/pkg/requirements.txt")])%list.
Proof.
  split; [reflexivity|]. split; [reflexivity|].
  apply (install_succeeds_on_exit_zero "/pkg/requirements.txt" succeeding_exec
           no_python_options empty_world "Requirement already satisfied"); reflexivity.
Defined.

Lemma failed_install_throws :
  failed_install empty_world
  = Throw (DocutilsError
             (INSTALL_FAILED
                ++ exit_message (join " ") NAME_PYTHON
                     (pip_install_args "/pkg/requirements.txt") 1))
      (world_after failed_install empty_world).
Proof. vm_compute. reflexivity. Qed.

(** A `pip` that exits with code 1, which teen_process turns into a
    rejection. *)
Lemma install_failures_are_wrapped_witness :
  failed_install empty_world
  = Throw (DocutilsError
             (INSTALL_FAILED
                ++ exit_message (join " ") NAME_PYTHON
                     (pip_install_args "/pkg/requirements.txt") 1))
      (world_after failed_install empty_world) ∧
  default false (dryRun (python_task no_python_options)) = false ∧
  ((∃ code stdout,
      failing_exec (default NAME_PYTHON (pythonPath no_python_options))
        (pip_install_args "/pkg/requirements.txt") (files empty_world)
        = Resolved code stdout ∧
      code ≠ 0%Z ∧
      DocutilsError
        (INSTALL_FAILED
           ++ exit_message (join " ") NAME_PYTHON
                (pip_install_args "/pkg/requirements.txt") 1)
      = DocutilsError (INSTALL_FAILED ++ INSTALL_FAILED ++ stdout)) ∨
   (∃ err,
      failing_exec (default NAME_PYTHON (pythonPath no_python_options))
        (pip_install_args "/pkg/requirements.txt") (files empty_world) = Rejected err ∧
      DocutilsError
        (INSTALL_FAILED
           ++ exit_message (join " ") NAME_PYTHON
                (pip_install_args "/pkg/requirements.txt") 1)
      = DocutilsError (INSTALL_FAILED ++ message err))) ∧
  logs (world_after failed_install empty_world)
  = (logs empty_world
       ++ [executing_entry (default NAME_PYTHON (pythonPath no_python_options))
             (pip_install_args "/pkg/requirements.txt");
           installing_entry])%list.
Proof.
  split; [apply failed_install_throws|].
  apply (install_failures_are_wrapped "/pkg/requirements.txt" failing_exec
           no_python_options empty_world).
  apply failed_install_throws.
Defined.

(** `init` called with nothing set. *)
Lemma init_with_nothing_enabled_witness :
  enabled (InitOptions.typescript nothing_enabled) = false ∧
  enabled (InitOptions.typedoc nothing_enabled) = false ∧
  enabled (InitOptions.python nothing_enabled) = false ∧
  enabled (InitOptions.mkdocs nothing_enabled) = false ∧
  init "/pkg/requirements.txt" failing_exec
    (logging_task "tsconfig") (logging_task "typedoc") (logging_task "mkdocs")
    nothing_enabled empty_world = Return tt empty_world.
Proof.
  split; [reflexivity|]. split; [reflexivity|]. split; [reflexivity|].
  split; [reflexivity|].
  apply (init_with_nothing_enabled "/pkg/requirements.txt" failing_exec
           (logging_task "tsconfig") (logging_task "typedoc") (logging_task "mkdocs")
           nothing_enabled empty_world); reflexivity.
Defined.

(** TypeDoc, Python and mkdocs without TypeScript: the tsconfig task may
    be any other. *)
Lemma disabled_steps_never_run_witness :
  enabled (InitOptions.typescript typedoc_python_mkdocs) = false ∧
  init "/pkg/requirements.txt" failing_exec
    (logging_task "tsconfig") (logging_task "typedoc") (logging_task "mkdocs")
    typedoc_python_mkdocs empty_world
  = init "/pkg/requirements.txt" failing_exec
      (logging_task "another") (logging_task "typedoc") (logging_task "mkdocs")
      typedoc_python_mkdocs empty_world.
Proof.
  split; [reflexivity|].
  apply (proj1 (disabled_steps_never_run "/pkg/requirements.txt" failing_exec
                  (logging_task "tsconfig") (logging_task "typedoc") (logging_task "mkdocs")
                  typedoc_python_mkdocs empty_world)).
  reflexivity.
Defined.

Lemma logging_task_spawns_nothing {Opts} (what : string) (opts : Opts) :
  preserves_spawned (logging_task what opts).
Proof. by intros w. Qed.

(** Every step enabled, in a dry run, with tasks that only log. *)
Lemma dry_run_init_spawns_nothing_witness :
  (∀ opts : InitTsConfigOptions, preserves_spawned (logging_task "tsconfig" opts)) ∧
  (∀ opts : InitTypeDocOptions, preserves_spawned (logging_task "typedoc" opts)) ∧
  (∀ opts : InitMkDocsOptions, preserves_spawned (logging_task "mkdocs" opts)) ∧
  InitOptions.dryRun everything_dry = Some true ∧
  preserves_spawned
    (init "/pkg/requirements.txt" failing_exec
       (logging_task "tsconfig") (logging_task "typedoc") (logging_task "mkdocs")
       everything_dry).
Proof.
  split; [apply logging_task_spawns_nothing|].
  split; [apply logging_task_spawns_nothing|].
  split; [apply logging_task_spawns_nothing|].
  split; [reflexivity|].
  apply (dry_run_init_spawns_nothing "/pkg/requirements.txt" failing_exec
           (logging_task "tsconfig") (logging_task "typedoc") (logging_task "mkdocs")
           everything_dry);
    [apply logging_task_spawns_nothing..|reflexivity].
Defined.
